(** * Torchflower: guard combinators and the route table

    A shallow embedding of [src/guard.ts], [src/router.ts], the
    [Torchflower] class of [src/index.ts] and [example/example.ts], with
    the properties of the design document stated and proved (or refuted)
    over it, followed by further laws of the same code: literals, [and],
    nesting of the combinators, runs of registrations, the verb methods
    and the example application end to end.

    JavaScript values are an inductive type; user callbacks (validators,
    shape closures, route handlers) are functions into a state-and-exception
    monad over an arbitrary state [S].  Whatever a callback does besides
    returning or throwing is a change of that state, so "the callback is
    not invoked" reads "the state is untouched, whatever the callback". *)

From Stdlib Require Import ZArith.
From Stdlib Require Import Floats.SpecFloat.
From stdpp Require Import gmap strings fin_maps.

Local Open Scope string_scope.
Set Warnings "-register-all".

(** ** JavaScript values and control flow *)

Module js.

(** The language values the guards look at.  A Number is a binary64
    datum ([spec_float]); objects, functions and symbols carry the
    reference that strict equality compares. *)
Inductive value : Type :=
| VUndefined
| VNull
| VBoolean (b : bool)
| VNumber (n : spec_float)
| VBigInt (z : Z)
| VString (s : string)
| VSymbol (ref : nat)
| VFunction (ref : nat)
| VObject (ref : nat) (props : list (string * value)).

(** [typeof v], the runtime type tag. *)
Definition typeof (v : value) : string :=
  match v with
  | VUndefined => "undefined"
  | VNull => "object"
  | VBoolean _ => "boolean"
  | VNumber _ => "number"
  | VBigInt _ => "bigint"
  | VString _ => "string"
  | VSymbol _ => "symbol"
  | VFunction _ => "function"
  | VObject _ _ => "object"
  end.

(** [ToBoolean v]: the truthiness used by [if (v)] and [!v]. *)
Definition ToBoolean (v : value) : bool :=
  match v with
  | VUndefined | VNull => false
  | VBoolean b => b
  | VNumber S754_nan | VNumber (S754_zero _) => false
  | VNumber _ => true
  | VBigInt z => negb (Z.eqb z 0)
  | VString s => negb (String.eqb s "")
  | VSymbol _ | VFunction _ | VObject _ _ => true
  end.

(** [a === b]. *)
Definition strict_equals (a b : value) : bool :=
  match a, b with
  | VUndefined, VUndefined => true
  | VNull, VNull => true
  | VBoolean x, VBoolean y => Bool.eqb x y
  | VNumber x, VNumber y => SFeqb x y
  | VBigInt x, VBigInt y => Z.eqb x y
  | VString x, VString y => String.eqb x y
  | VSymbol x, VSymbol y => Nat.eqb x y
  | VFunction x, VFunction y => Nat.eqb x y
  | VObject x _, VObject y _ => Nat.eqb x y
  | _, _ => false
  end.

(** Comparison of two strings with [==], as in [typeof v == "string"]. *)
Definition string_equals (a b : string) : value := VBoolean (String.eqb a b).

(** What a [throw] carries: [new Error(msg)], a [TypeError] of the
    runtime, or any other value a callback chooses to throw. *)
Inductive exn : Type :=
| Error (message : string)
| TypeError (message : string)
| Thrown (v : value).

(** [new Error(msg)] with [msg] possibly [undefined]. *)
Definition new_Error (msg : option string) : exn := Error (default "" msg).

(** How a call ends. *)
Inductive completion (A : Type) : Type :=
| Normal (a : A)
| Throw (e : exn).
Arguments Normal {A} a.
Arguments Throw {A} e.

(** Computations over a state [S]. *)
Definition M (S A : Type) : Type := S -> completion A * S.

Section monad.
Context {S : Type}.

Definition ret {A} (a : A) : M S A := fun s => (Normal a, s).

Definition throw {A} (e : exn) : M S A := fun s => (Throw e, s).

Definition bind {A B} (m : M S A) (k : A -> M S B) : M S B :=
  fun s =>
    match m s with
    | (Normal a, s') => k a s'
    | (Throw e, s') => (Throw e, s')
    end.

(** [try { body } catch (e) { handler e }]. *)
Definition try_catch {A} (body : M S A) (handler : exn -> M S A) : M S A :=
  fun s =>
    match body s with
    | (Normal a, s') => (Normal a, s')
    | (Throw e, s') => handler e s'
    end.

(** Did the call throw? *)
Definition throws {A} (r : completion A * S) : bool :=
  match r with
  | (Throw _, _) => true
  | (Normal _, _) => false
  end.

End monad.

Module notations.
Notation "x <- m ;; k" := (bind m (fun x => k))
  (at level 200, m at level 99, k at level 200, only parsing).
Notation "m ;;; k" := (bind m (fun _ => k))
  (at level 200, k at level 200, only parsing).
End notations.

End js.

Import js js.notations.

(** ** guard.ts *)

Module guard.

Section guards.
Context {S : Type}.

(** A validator: [(value: unknown) => T], which may throw. *)
Definition validator : Type := value -> M S value.

(** [assert(condition, msg?)]: throws when [condition === false]. *)
Definition assert (condition : value) (msg : option String.string) : M S unit :=
  if strict_equals condition (VBoolean false)
  then throw (new_Error msg)
  else ret tt.

(** [check(guard)]: the guard inside [try]/[catch], [null] on a throw. *)
Definition check (guard : validator) : validator :=
  fun value => try_catch (guard value) (fun _ => ret VNull).

Definition string : validator :=
  fun value => assert (string_equals (typeof value) "string") None ;;; ret value.

Definition number : validator :=
  fun value => assert (string_equals (typeof value) "number") None ;;; ret value.

Definition bigint : validator :=
  fun value => assert (string_equals (typeof value) "bigint") None ;;; ret value.

Definition boolean : validator :=
  fun value => assert (string_equals (typeof value) "boolean") None ;;; ret value.

Definition callback : validator :=
  fun value => assert (string_equals (typeof value) "function") None ;;; ret value.

Definition object : validator :=
  fun value => assert (string_equals (typeof value) "object") None ;;; ret value.

(** [record(guard)]: [guard(object(value))]. *)
Definition record (guard : validator) : validator :=
  fun value => o <- object value ;; guard o.

Definition literal (literal : value) : validator :=
  fun value => assert (VBoolean (strict_equals literal value)) None ;;; ret value.

Definition string_literal (literal : String.string) : validator :=
  fun value =>
    assert (VBoolean (strict_equals (VString literal) value)) None ;;; ret value.

(** [or(lhs, rhs)]: both sides go through [check]; the value handed back
    is the argument, [return value as any]. *)
Definition or (lhs rhs : validator) : validator :=
  fun value =>
    lhs_result <- check lhs value ;;
    if ToBoolean lhs_result then ret value else
    rhs_result <- check rhs value ;;
    if ToBoolean rhs_result then ret value else
    throw (new_Error (Some "Union check failed")).

(** [and(lhs, rhs)]. *)
Definition and (lhs rhs : validator) : validator :=
  fun value =>
    lhs_result <- check lhs value ;;
    if negb (ToBoolean lhs_result)
    then throw (new_Error (Some "Intersection check failed")) else
    rhs_result <- check rhs value ;;
    if negb (ToBoolean rhs_result)
    then throw (new_Error (Some "Intersection check failed")) else
    ret value.

(** [optional(guard)]. *)
Definition optional (guard : validator) : validator :=
  fun value =>
    if negb (ToBoolean value) then ret VUndefined else guard value.

(** The six primitive validators, by the kind they expect. *)
Inductive primitive : Type :=
| PString | PNumber | PBoolean | PBigint | PCallback | PObject.

Definition primitive_validator (p : primitive) : validator :=
  match p with
  | PString => string
  | PNumber => number
  | PBoolean => boolean
  | PBigint => bigint
  | PCallback => callback
  | PObject => object
  end.

(** The type tag each of them compares [typeof value] with. *)
Definition expected_tag (p : primitive) : String.string :=
  match p with
  | PString => "string"
  | PNumber => "number"
  | PBoolean => "boolean"
  | PBigint => "bigint"
  | PCallback => "function"
  | PObject => "object"
  end.

(** Observations on one call of a validator, used to state the
    combinators' behaviour: does the call return a truthy value, and in
    which state does it leave the callbacks' world. *)
Definition yields_truthy (g : validator) (x : value) (s : S) : bool :=
  match g x s with
  | (Normal r, _) => ToBoolean r
  | (Throw _, _) => false
  end.

Definition state_after (g : validator) (x : value) (s : S) : S := snd (g x s).

End guards.

Arguments validator S : clear implicits.

End guard.

(** ** router.ts *)

Module router.

(** The parts of the Fetch API's [Request], [Response] and [URL] that the
    router touches. *)
Record Request : Type := { method : string; url : string }.

Record Response : Type := { body : string; status : Z; statusText : string }.

Record URL : Type := { pathname : string }.

(** [new Response(body)]: status 200 and an empty status text unless the
    init says otherwise. *)
Definition new_Response (body : string) : Response :=
  {| body := body; status := 200; statusText := "" |}.

(** [Map.prototype.has]. *)
Definition has {V} (m : gmap string V) (key : string) : bool :=
  bool_decide (is_Some (m !! key)).

Section routes.
Context {S : Type}.

(** The URL parser of the runtime, [None] where [new URL(input)] throws. *)
Variable URL_parse : string -> option URL.

Definition new_URL (input : string) : M S URL :=
  match URL_parse input with
  | Some u => ret u
  | None => throw (TypeError "Invalid URL")
  end.

(** [(req: Request) => Promise<Response>]: a rejected promise is a
    [Throw]. *)
Definition Handler : Type := Request -> M S Response.

(** [class Router], its one field: method, then path, then handler. *)
Record Router : Type := { routes : gmap string (gmap string Handler) }.

Definition new_Router : Router := {| routes := ∅ |}.

(** [Router.route(method, route, handler)], a computation on [this]. *)
Definition route (method route : string) (handler : Handler) : M Router bool :=
  fun this =>
    let outer :=
      if negb (has (routes this) method)
      then <[method := ∅]> (routes this)
      else routes this in
    match outer !! method with
    | None => (Throw (TypeError "undefined is not an object"), {| routes := outer |})
    | Some inner =>
        if has inner route then (Normal false, {| routes := outer |})
        else (Normal true, {| routes := <[method := <[route := handler]> inner]> outer |})
    end.

(** [Router.handle(req)]; it only reads [this]. *)
Definition handle (this : Router) (req : Request) : M S Response :=
  match routes this !! method req with
  | None => ret (new_Response "404 INVALID")
  | Some inner =>
      url <- new_URL (url req) ;;
      if negb (has inner (pathname url)) then ret (new_Response "404 INVALID") else
      match inner !! pathname url with
      | Some handler => handler req
      | None => throw (TypeError "handler is not a function")
      end
  end.

(** The handler bound to a (method, path) pair, if any. *)
Definition bound (this : Router) (method route : string) : option Handler :=
  routes this !! method ≫= (.!! route).

End routes.

Arguments Handler S : clear implicits.
Arguments Router S : clear implicits.

End router.

(** ** index.ts: the application object *)

Module torchflower.

Import router.

Section app.
Context {S : Type}.

(** What [Bun.serve] is given that outlives the call: the port and the
    error callback (the [fetch] closure reads the live router). *)
Record Server : Type := { port : Z; error : exn -> M S Response }.

Record Torchflower : Type := {
  router : Router S;
  error_handler : exn -> M S Response;
  server : option Server;
  listening : bool
}.

(** The initial value of the [error_handler] field. *)
Definition default_error_handler : exn -> M S Response :=
  fun _ =>
    ret {| body := "500 Internal Server Error";
           status := 500;
           statusText := "Internal Server Error" |}.

(** [new Torchflower()]. *)
Definition new_Torchflower : Torchflower :=
  {| router := new_Router;
     error_handler := default_error_handler;
     server := None;
     listening := false |}.

(** [set_error_handler(handler)]. *)
Definition set_error_handler (handler : exn -> M S Response)
    (this : Torchflower) : Torchflower :=
  if negb (listening this) then this
  else {| router := router this;
          error_handler := handler;
          server := server this;
          listening := listening this |}.

(** [Bun.serve(options)], the runtime starting to listen: it throws when
    it cannot (a port out of range or in use), and what it returns is the
    server of these options. *)
Variable Bun_serve : Server -> M S unit.

(** [serve(port = 3000, on)]: [Bun.serve] is called with the handler
    stored at that moment; when it throws, the throw leaves [serve] at
    once, nothing assigned and [on] not run; otherwise the server is
    stored, the flag is raised, then [on] runs. *)
Definition serve (port : option Z) (on : M S unit) : M (Torchflower * S) unit :=
  fun '(this, s) =>
    let port := default 3000%Z port in
    let options := {| port := port; error := error_handler this |} in
    match Bun_serve options s with
    | (Throw e, s1) => (Throw e, (this, s1))
    | (Normal _, s1) =>
        let this' :=
          {| router := router this;
             error_handler := error_handler this;
             server := Some options;
             listening := true |} in
        let '(r, s') := on s1 in
        (r, (this', s'))
    end.

End app.

Arguments Server S : clear implicits.
Arguments Torchflower S : clear implicits.

End torchflower.

(** ** Sample callbacks and requests

    Concrete validators, handlers and a URL parser on which the general
    statements below are exercised. *)

Module samples.

Import guard router torchflower.

(** The Number [+0]. *)
Definition zero : value := VNumber (S754_zero false).

(** A validator that answers [r] whatever it is given. *)
Definition always (r : value) : validator unit := fun _ => ret r.

(** A callback world that counts calls: [counted g] is [g] with the
    counter bumped on entry. *)
Definition counted (g : validator nat) : validator nat :=
  fun value n => g value (Datatypes.S n).

(** Own property read, [undefined] when absent. *)
Definition get_property (v : value) (key : String.string) : value :=
  match v with
  | VObject _ props =>
      match List.find (fun kv => String.eqb (fst kv) key) props with
      | Some kv => snd kv
      | None => VUndefined
      end
  | _ => VUndefined
  end.

(** The shape closure of example.ts, the name field only: it builds a new
    object (reference 1) from the validated field. *)
Definition name_shape : validator unit :=
  fun value =>
    match value with
    | VUndefined | VNull => throw (TypeError "Cannot read properties")
    | _ =>
        name <- string (get_property value "name") ;;
        ret (VObject 1 [("name", name)])
    end.

(** The validator of the README, "Critical" | "Medium" | "Low". *)
Definition is_priority : validator unit :=
  or (string_literal "Critical")
     (or (string_literal "Medium") (string_literal "Low")).

(** [{ name: "x" }], allocated at reference 0. *)
Definition task_body : value := VObject 0 [("name", VString "x")].

(** A toy URL parser: absolute URLs on one origin, the rest is the path. *)
Definition origin : String.string := "http://localhost:3000".

Definition URL_parse (input : String.string) : option URL :=
  if String.prefix origin input
  then Some {| pathname :=
                 String.substring (String.length origin)
                   (String.length input - String.length origin) input |}
  else None.

(** A runtime that listens on the ports 0 to 65535 and on no other. *)
Definition Bun_serve {S : Type} (options : Server S) : M S unit :=
  if (0 <=? port options)%Z && (port options <=? 65535)%Z
  then ret tt
  else throw (Error "Failed to start server").

(** Two handlers that count their calls and answer differently. *)
Definition hello : Handler nat :=
  fun _ n => (Normal (new_Response "Hello, World!"), Datatypes.S n).

Definition other : Handler nat :=
  fun _ n => (Normal (new_Response "other"), Datatypes.S n).

Definition get_root : Request :=
  {| method := "GET"; url := "http://localhost:3000/" |}.

Definition post_root : Request :=
  {| method := "POST"; url := "http://localhost:3000/" |}.

Definition get_missing : Request :=
  {| method := "GET"; url := "http://localhost:3000/missing" |}.

(** The router after [route("GET", "/", hello)]. *)
Definition hello_router : Router nat :=
  snd (route "GET" "/" hello new_Router).

End samples.

(** ** index.ts: the methods of the application object *)

Module application.

Import router torchflower.

Section methods.
Context {S : Type}.

(** The URL parser of the runtime, as in [router]. *)
Variable URL_parse : String.string -> option URL.

(** Bun's [SocketAddress] and [Server.requestIP], [None] for [null]. *)
Variable SocketAddress : Type.
Variable requestIP : Server S -> Request -> option SocketAddress.

(** [Bun.serve], as in [torchflower]. *)
Variable Bun_serve : Server S -> M S unit.

(** The body the six verb methods share,
    [this.router.route(METHOD, route, handler)]: the boolean that [route]
    answers is dropped. *)
Definition listen_to (method route : String.string) (handler : Handler S)
    : M (Torchflower S) unit :=
  fun this =>
    let '(r, router') := router.route method route handler (router this) in
    let this' :=
      {| router := router';
         error_handler := error_handler this;
         server := server this;
         listening := listening this |} in
    match r with
    | Normal _ => (Normal tt, this')
    | Throw e => (Throw e, this')
    end.

Definition get : String.string -> Handler S -> M (Torchflower S) unit :=
  listen_to "GET".

Definition head : String.string -> Handler S -> M (Torchflower S) unit :=
  listen_to "HEAD".

Definition post : String.string -> Handler S -> M (Torchflower S) unit :=
  listen_to "POST".

Definition put : String.string -> Handler S -> M (Torchflower S) unit :=
  listen_to "PUT".

Definition delete : String.string -> Handler S -> M (Torchflower S) unit :=
  listen_to "DELETE".

Definition patch : String.string -> Handler S -> M (Torchflower S) unit :=
  listen_to "PATCH".

(** The [fetch] closure that [serve] hands to [Bun.serve]:
    [(req) => this.router.handle(req)], on the router as it is when the
    request comes. *)
Definition fetch (this : Torchflower S) (req : Request) : M S Response :=
  handle URL_parse (router this) req.

(** [request_ip(req)]:
    [(this.server && this.server.requestIP(req)) || null]. *)
Definition request_ip (this : Torchflower S) (req : Request)
    : option SocketAddress :=
  match server this with
  | None => None
  | Some srv => requestIP srv req
  end.

(** A call made on the application object while it is set up. *)
Inductive call : Type :=
| Call_set_error_handler (handler : exn -> M S Response)
| Call_get (route : String.string) (handler : Handler S)
| Call_head (route : String.string) (handler : Handler S)
| Call_post (route : String.string) (handler : Handler S)
| Call_put (route : String.string) (handler : Handler S)
| Call_delete (route : String.string) (handler : Handler S)
| Call_patch (route : String.string) (handler : Handler S).

Definition run_call (c : call) (this : Torchflower S) : Torchflower S :=
  match c with
  | Call_set_error_handler handler => set_error_handler handler this
  | Call_get route handler => snd (get route handler this)
  | Call_head route handler => snd (head route handler this)
  | Call_post route handler => snd (post route handler this)
  | Call_put route handler => snd (put route handler this)
  | Call_delete route handler => snd (delete route handler this)
  | Call_patch route handler => snd (patch route handler this)
  end.

(** The calls of a list, first to last. *)
Definition run_calls (cs : list call) (this : Torchflower S) : Torchflower S :=
  fold_left (fun app c => run_call c app) cs this.

(** The application object once [serve] has run on it. *)
Definition served (port : option Z) (on : M S unit) (this : Torchflower S)
    (s : S) : Torchflower S :=
  fst (snd (serve Bun_serve port on (this, s))).

End methods.

End application.

(** ** example/example.ts *)

Module example.

Import guard router torchflower application.

(** What the example's callbacks act on: the next free object reference
    and what was printed. *)
Inductive output : Type :=
| Log (v : value)
| Table (v : value).

Record world : Type := { next_ref : nat; console : list output }.

(** An object literal: a new object at the next free reference. *)
Definition object_literal (props : list (String.string * value)) : M world value :=
  fun w =>
    (Normal (VObject (next_ref w) props),
     {| next_ref := Datatypes.S (next_ref w); console := console w |}).

Definition console_log (v : value) : M world unit :=
  fun w =>
    (Normal tt, {| next_ref := next_ref w; console := console w ++ [Log v] |}).

Definition console_table (v : value) : M world unit :=
  fun w =>
    (Normal tt, {| next_ref := next_ref w; console := console w ++ [Table v] |}).

(** [value.key] on decoded JSON: a [TypeError] on [null] and [undefined],
    the own property of an object, [undefined] where there is none. *)
Definition member (v : value) (key : String.string) : M world value :=
  match v with
  | VUndefined | VNull => throw (TypeError "Cannot read properties")
  | _ => ret (samples.get_property v key)
  end.

(** The shape closure given to [guard.record]. *)
Definition task_shape : validator world :=
  fun value =>
    value_name <- member value "name" ;;
    name <- string value_name ;;
    value_priority <- member value "priority" ;;
    priority <-
      or (string_literal "Critical")
         (or (string_literal "Medium") (string_literal "Low")) value_priority ;;
    object_literal [("name", name); ("priority", priority)].

(** [const task = guard.check(guard.record(...))]. *)
Definition task : validator world := check (record task_shape).

Section handlers.

(** [req.json()], the body decoder of the runtime. *)
Variable json : Request -> M world value.

(** [Bun.serve], as in [torchflower]. *)
Variable Bun_serve : Server world -> M world unit.

(** The handler of [app.get("/", ...)]. *)
Definition get_root : Handler world :=
  fun req => ret (new_Response "Hello, World!").

(** The handler of [app.post("/task", ...)]. *)
Definition post_task : Handler world :=
  fun req =>
    body <- json req ;;
    metadata <- task body ;;
    if negb (ToBoolean metadata) then ret (new_Response "400 Bad Request") else
    console_log (VString "--- New task received!") ;;;
    console_table metadata ;;;
    ret (new_Response "200 OK").

(** The application object after the two registrations. *)
Definition app : Torchflower world :=
  snd (post "/task" post_task (snd (get "/" get_root new_Torchflower))).

(** The whole script: the registrations, then
    [app.serve(3000, () => console.log("Listening on port 3000!"))]. *)
Definition main (w : world) : completion unit * (Torchflower world * world) :=
  serve Bun_serve (Some 3000%Z)
    (console_log (VString "Listening on port 3000!")) (app, w).

End handlers.

(** The bodies the example means to accept: an object with a string
    [name] and a [priority] among the three literals. *)
Definition is_priority (v : value) : bool :=
  match v with
  | VString p =>
      String.eqb p "Critical" || String.eqb p "Medium" || String.eqb p "Low"
  | _ => false
  end.

Definition is_task (v : value) : bool :=
  match v with
  | VObject _ _ =>
      String.eqb (typeof (samples.get_property v "name")) "string"
      && is_priority (samples.get_property v "priority")
  | _ => false
  end.

End example.

(** ** Classes of values and validators used in the statements *)

Module classes.

Import guard.

(** Literals for which [===] is plain equality: no Number (where [NaN]
    and the two zeros differ from it) and no reference. *)
Definition plain_literal (L : value) : bool :=
  match L with
  | VUndefined | VNull | VBoolean _ | VBigInt _ | VString _ => true
  | VNumber _ | VSymbol _ | VFunction _ | VObject _ _ => false
  end.

Section narrowing.
Context {S : Type}.

(** A validator that, when it returns, returns the very value it was
    given: what the primitives, the literals, [or] and [and] do, and what
    a shape closure under [record] need not do. *)
Definition narrowing (g : validator S) : Prop :=
  forall x s r s', g x s = (Normal r, s') -> r = x.

End narrowing.

(** A response of the client-error class, status 400 to 499. *)
Definition is_client_error (response : router.Response) : bool :=
  (400 <=? router.status response)%Z && (router.status response <=? 499)%Z.

Section tables.
Context {S : Type}.

(** A run of registrations, first to last, each answer dropped. *)
Definition route_all (calls : list (String.string * String.string * router.Handler S))
    (this : router.Router S) : router.Router S :=
  fold_left (fun r '(method, route, handler) => snd (router.route method route handler r))
    calls this.

(** No method of the router maps to an empty table. *)
Definition no_empty_table (this : router.Router S) : Prop :=
  forall method inner, router.routes this !! method = Some inner -> inner <> ∅.

End tables.

End classes.

(** ** Properties of the guards *)

Module guard_spec.

Import guard.

Section facts.
Context {S : Type}.
Implicit Types (g a b : validator S) (x r : value) (s : S).

(** An assertion on a comparison of tags passes exactly when they agree. *)
Lemma assert_string_equals (t1 t2 : String.string) msg s :
  assert (string_equals t1 t2) msg s =
  if String.eqb t1 t2 then (Normal tt, s) else (Throw (new_Error msg), s).
Proof.
  unfold assert, string_equals, strict_equals.
  destruct (String.eqb t1 t2); reflexivity.
Qed.

(** C9: [assert(condition, msg)] throws exactly when [condition] is the
    boolean [false]; every other value, the falsy [0], [-0], the empty
    string, [null], [undefined] and [NaN] included, lets it return. *)
Theorem assert_throws_iff_false (condition : value) msg s :
  (throws (assert condition msg s) = true <-> condition = VBoolean false) /\
  assert condition msg s =
    match condition with
    | VBoolean false => (Throw (new_Error msg), s)
    | _ => (Normal tt, s)
    end /\
  Forall (fun c => ToBoolean c = false /\ assert c msg s = (Normal tt, s))
    [samples.zero; VNumber (S754_zero true); VString ""; VNull; VUndefined;
     VNumber S754_nan].
Proof.
  split; [|split].
  - unfold assert. destruct condition as [| |[]| | | | | |]; simpl;
      split; intros H; try discriminate; reflexivity.
  - unfold assert. destruct condition as [| |[]| | | | | |]; reflexivity.
  - repeat constructor.
Qed.

(** C3: [check(v)(x)] never throws; it hands back what [v(x)] returned,
    and [null] when [v(x)] threw, whatever was thrown. *)
Theorem check_never_throws (v : validator S) x s :
  throws (check v x s) = false /\
  check v x s =
    match v x s with
    | (Normal r, s') => (Normal r, s')
    | (Throw _, s') => (Normal VNull, s')
    end.
Proof.
  unfold check, try_catch, ret.
  destruct (v x s) as [[r|e] s']; split; reflexivity.
Qed.

(** What [check] reports: always a value, truthy exactly when the guard
    returned a truthy one, in the state the guard left. *)
Lemma check_observed g x s :
  exists c, check g x s = (Normal c, state_after g x s) /\
            ToBoolean c = yields_truthy g x s.
Proof.
  unfold yields_truthy, state_after, check, try_catch, ret.
  destruct (g x s) as [[r|e] s']; eexists; split; reflexivity.
Qed.

(** Each primitive validator is one tag comparison. *)
Lemma primitive_validator_eq p x s :
  primitive_validator p x s =
  if String.eqb (typeof x) (expected_tag p)
  then (Normal x, s)
  else (Throw (Error ""), s).
Proof.
  destruct p; simpl;
    unfold string, number, boolean, bigint, callback, object, bind;
    rewrite assert_string_equals;
    destruct (String.eqb (typeof x) _); reflexivity.
Qed.

(** C5: a primitive validator returns its argument unchanged exactly when
    [typeof] of the argument is the tag of the validator's kind, and
    throws exactly when it is not; nothing is coerced, [number("5")]
    throws. *)
Theorem primitive_validator_iff_tag p x s :
  (typeof x = expected_tag p <-> primitive_validator p x s = (Normal x, s)) /\
  (typeof x <> expected_tag p <-> throws (primitive_validator p x s) = true) /\
  throws (number (VString "5") s) = true.
Proof.
  rewrite primitive_validator_eq.
  destruct (String.eqb (typeof x) (expected_tag p)) eqn:E.
  - apply String.eqb_eq in E. repeat split; intros; try reflexivity;
      try assumption; try contradiction; try discriminate.
  - apply String.eqb_neq in E. repeat split; intros; try reflexivity;
      try assumption; try contradiction; try discriminate.
Qed.

(** C6: [optional(g)] answers [undefined] on [undefined] and on every
    other falsy argument, leaving the callbacks' state as it was (so [g]
    did not run); on a truthy argument it is the call of [g], result or
    throw. *)
Theorem optional_skips_falsy_delegates_truthy g v s :
  optional g VUndefined s = (Normal VUndefined, s) /\
  optional g v s = if ToBoolean v then g v s else (Normal VUndefined, s).
Proof.
  unfold optional, ret. split; [reflexivity|].
  destruct (ToBoolean v); reflexivity.
Qed.

(** X27: [or(a, b)(x)] as it runs: [a] first, under [check]; if that
    gives a truthy value the call returns the argument [x] and [b] does
    not run; otherwise [b] runs under [check], and a truthy value again
    makes the call return [x]; otherwise the call throws the error
    "Union check failed". *)
Theorem or_left_first_returns_argument a b x s :
  or a b x s =
  if yields_truthy a x s then (Normal x, state_after a x s)
  else if yields_truthy b x (state_after a x s)
       then (Normal x, state_after b x (state_after a x s))
       else (Throw (Error "Union check failed"),
             state_after b x (state_after a x s)).
Proof.
  unfold or, bind, check, try_catch, ret, throw, yields_truthy, state_after.
  destruct (a x s) as [[ra|ea] sa]; simpl.
  - destruct (ToBoolean ra); [reflexivity|].
    destruct (b x sa) as [[rb|eb] sb]; simpl; [|reflexivity].
    destruct (ToBoolean rb); reflexivity.
  - destruct (b x sa) as [[rb|eb] sb]; simpl; [|reflexivity].
    destruct (ToBoolean rb); reflexivity.
Qed.

(** C2: when [a] returns a falsy value, [or(a, b)] behaves as if [a] had
    thrown: it goes on to [b], returns the argument if [b] gives a truthy
    value and throws otherwise. *)
Theorem or_falsy_lhs_falls_through a b x r s s1 :
  a x s = (Normal r, s1) ->
  ToBoolean r = false ->
  or a b x s =
    (if yields_truthy b x s1 then (Normal x, state_after b x s1)
     else (Throw (Error "Union check failed"), state_after b x s1)) /\
  forall e, or a b x s = or (fun _ _ => (Throw e, s1)) b x s.
Proof.
  intros Ha Hr.
  unfold or, bind, check, try_catch, ret, throw, yields_truthy, state_after.
  rewrite Ha. simpl. rewrite Hr.
  destruct (b x s1) as [[rb|eb] sb]; simpl.
  - destruct (ToBoolean rb); split; reflexivity.
  - split; reflexivity.
Qed.

(** [and], branch by branch: the sibling of [or], it too returns the
    argument. *)
Lemma and_eq a b x s :
  and a b x s =
  if yields_truthy a x s
  then if yields_truthy b x (state_after a x s)
       then (Normal x, state_after b x (state_after a x s))
       else (Throw (Error "Intersection check failed"),
             state_after b x (state_after a x s))
  else (Throw (Error "Intersection check failed"), state_after a x s).
Proof.
  unfold and, bind, check, try_catch, ret, throw, yields_truthy, state_after.
  destruct (a x s) as [[ra|ea] sa]; simpl.
  - destruct (ToBoolean ra); [|reflexivity]. simpl.
    destruct (b x sa) as [[rb|eb] sb]; simpl; [|reflexivity].
    destruct (ToBoolean rb); reflexivity.
  - reflexivity.
Qed.

(** [record(guard)] on an argument whose tag is not "object": the
    assertion throws and the shape closure does not run. *)
Lemma record_rejects_other_tags g x s :
  typeof x <> "object" -> record g x s = (Throw (Error ""), s).
Proof.
  intros H. unfold record, bind.
  pose proof (primitive_validator_eq PObject x s) as E. simpl in E. rewrite E.
  apply String.eqb_neq in H. rewrite H. reflexivity.
Qed.

(** [record(guard)] on an argument tagged "object" is the call of the
    shape closure on it. *)
Lemma record_delegates g x s :
  typeof x = "object" -> record g x s = g x s.
Proof.
  intros H. unfold record, bind.
  pose proof (primitive_validator_eq PObject x s) as E. simpl in E. rewrite E.
  apply String.eqb_eq in H. rewrite H. reflexivity.
Qed.

(** C4, at [null]: the assertion of [record] lets [null] through, its tag
    being "object", and the shape closure is called on it. *)
Theorem record_calls_guard_on_null g s :
  typeof VNull = "object" /\ record g VNull s = g VNull s.
Proof. split; [reflexivity|]. apply record_delegates. reflexivity. Qed.

End facts.

(** Witness of C2: [number] returns the falsy [0] on [0], and
    [or(number, string)(0)] throws. *)
Lemma or_falsy_lhs_falls_through_witness :
  or number string samples.zero tt =
    (Throw (Error "Union check failed"), tt) /\
  forall e, or number string samples.zero tt =
            or (fun _ _ => (Throw e, tt)) string samples.zero tt.
Proof.
  apply (or_falsy_lhs_falls_through number string samples.zero samples.zero tt tt).
  - reflexivity.
  - reflexivity.
Defined.

(** C1, at the failing input: on the task body the left validator
    [record(name_shape)] returns a truthy object of its own (reference 1),
    the right one would return the string "right", and [or] returns
    neither of them, where its documentation promises the first truthy
    one: it returns the argument (reference 0). *)
Lemma or_returns_neither_result :
  let a := record samples.name_shape in
  let b := samples.always (VString "right") in
  let x := samples.task_body in
  let narrowed := VObject 1 [("name", VString "x")] in
  check a x tt = (Normal narrowed, tt) /\
  ToBoolean narrowed = true /\
  check b x tt = (Normal (VString "right"), tt) /\
  or a b x tt = (Normal x, tt) /\
  or a b x tt <> (Normal narrowed, tt).
Proof.
  cbv zeta. repeat split; try reflexivity.
  vm_compute. discriminate.
Qed.

(** The README's priority validator accepts "Medium" and "Low", and
    throws on "Urgent" and on a non-string. *)
Example is_priority_medium :
  samples.is_priority (VString "Medium") tt = (Normal (VString "Medium"), tt).
Proof. reflexivity. Qed.

Example is_priority_low :
  samples.is_priority (VString "Low") tt = (Normal (VString "Low"), tt).
Proof. reflexivity. Qed.

Example is_priority_urgent :
  samples.is_priority (VString "Urgent") tt =
  (Throw (Error "Union check failed"), tt).
Proof. reflexivity. Qed.

Example is_priority_null :
  check samples.is_priority VNull tt = (Normal VNull, tt).
Proof. reflexivity. Qed.

(** Seen on a counting shape closure: it has run once after
    [record(...)(null)]. *)
Lemma record_null_runs_guard :
  record (samples.counted (fun v => ret v)) VNull 0 = (Normal VNull, 1).
Proof. reflexivity. Qed.

End guard_spec.

(** ** Properties of the route table *)

Module router_spec.

Import router.

Section facts.
Context {S : Type}.
Variable URL_parse : String.string -> option URL.
Implicit Types (this : Router S) (handler : Handler S) (req : Request) (s : S).

Lemma has_true {V} (m : gmap String.string V) key :
  has m key = true <-> is_Some (m !! key).
Proof. unfold has. apply bool_decide_eq_true. Qed.

Lemma has_false {V} (m : gmap String.string V) key :
  has m key = false <-> m !! key = None.
Proof.
  unfold has. rewrite bool_decide_eq_false. split.
  - intros H. destruct (m !! key) eqn:E; [|reflexivity].
    exfalso. apply H. eauto.
  - intros -> [v Hv]. discriminate.
Qed.

(** A pair that is already bound: [route] answers [false] and [this] is
    what it was. *)
Lemma route_taken this method path handler first :
  bound this method path = Some first ->
  route method path handler this = (Normal false, this).
Proof.
  unfold bound, route. intros H.
  destruct (routes this !! method) as [inner|] eqn:Hm; [|discriminate].
  simpl in H.
  assert (Hh : has (routes this) method = true) by (apply has_true; eauto).
  rewrite Hh. simpl. rewrite Hm.
  assert (Hp : has inner path = true) by (apply has_true; eauto).
  rewrite Hp. destruct this; reflexivity.
Qed.

(** A free pair: [route] answers [true] and binds the handler in the
    method's table, created empty if the method had none. *)
Lemma route_free this method path handler :
  bound this method path = None ->
  route method path handler this =
    (Normal true,
     {| routes := <[method := <[path := handler]> (default ∅ (routes this !! method))]>
                    (routes this) |}).
Proof.
  unfold bound, route. intros H.
  destruct (routes this !! method) as [inner|] eqn:Hm; simpl in *.
  - assert (Hh : has (routes this) method = true) by (apply has_true; eauto).
    rewrite Hh. simpl. rewrite Hm.
    assert (Hp : has inner path = false) by (apply has_false; exact H).
    rewrite Hp. reflexivity.
  - assert (Hh : has (routes this) method = false) by (apply has_false; exact Hm).
    rewrite Hh. simpl. rewrite lookup_insert_eq.
    assert (Hp : has (V:=Handler S) ∅ path = false)
      by (apply has_false; apply lookup_empty).
    rewrite Hp. rewrite insert_insert_eq. reflexivity.
Qed.

(** Lookups after a binding was added. *)
Lemma bound_insert this method path handler m p :
  bound {| routes := <[method := <[path := handler]> (default ∅ (routes this !! method))]>
                       (routes this) |} m p =
  if decide (m = method /\ p = path) then Some handler else bound this m p.
Proof.
  unfold bound. simpl.
  destruct (decide (m = method)) as [->|Hm].
  - rewrite lookup_insert_eq. simpl.
    destruct (decide (p = path)) as [->|Hp].
    + rewrite lookup_insert_eq. rewrite decide_True by auto. reflexivity.
    + rewrite lookup_insert_ne by auto.
      rewrite decide_False by (intros [_ ?]; auto).
      destruct (routes this !! method); simpl; [reflexivity|apply lookup_empty].
  - rewrite lookup_insert_ne by auto.
    rewrite decide_False by (intros [? _]; auto). reflexivity.
Qed.

(** C7: registering a (method, path) pair that is bound answers [false]
    and leaves the whole table as it was, the first handler still bound;
    registering a free pair answers [true] and binds the handler there,
    every other pair keeping its binding. *)
Theorem route_first_registration_wins this method path handler :
  (forall first, bound this method path = Some first ->
     route method path handler this = (Normal false, this) /\
     bound (snd (route method path handler this)) method path = Some first) /\
  (bound this method path = None ->
     exists this',
       route method path handler this = (Normal true, this') /\
       bound this' method path = Some handler /\
       forall m p, (m, p) <> (method, path) -> bound this' m p = bound this m p).
Proof.
  split.
  - intros first H. rewrite (route_taken _ _ _ _ _ H). split; [reflexivity|exact H].
  - intros H. eexists. split; [apply route_free; exact H|]. split.
    + rewrite bound_insert. rewrite decide_True by auto. reflexivity.
    + intros m p Hne. rewrite bound_insert.
      rewrite decide_False; [reflexivity|]. intros [-> ->]. apply Hne. reflexivity.
Qed.

(** [handle] when the method has no table: the fixed answer, before the
    URL is even parsed. *)
Lemma handle_unknown_method this req s :
  routes this !! method req = None ->
  handle URL_parse this req s = (Normal (new_Response "404 INVALID"), s).
Proof. intros H. unfold handle. rewrite H. reflexivity. Qed.

(** [handle] once the URL is parsed. *)
Lemma handle_parsed this req s u :
  URL_parse (url req) = Some u ->
  handle URL_parse this req s =
    match bound this (method req) (pathname u) with
    | Some handler => handler req s
    | None => (Normal (new_Response "404 INVALID"), s)
    end.
Proof.
  intros Hu. unfold handle, bound, new_URL, bind, ret.
  destruct (routes this !! method req) as [inner|]; simpl; [|reflexivity].
  rewrite Hu. simpl.
  destruct (inner !! pathname u) as [h|] eqn:Hp.
  - assert (Hh : has inner (pathname u) = true) by (apply has_true; eauto).
    rewrite Hh. reflexivity.
  - assert (Hh : has inner (pathname u) = false) by (apply has_false; exact Hp).
    rewrite Hh. reflexivity.
Qed.

(** X28: a request whose method has no table, or whose URL's path has no
    handler in the method's table, gets the fixed response of body
    "404 INVALID", normally returned and with the callbacks' state
    untouched (no handler ran); a request whose (method, path) is bound
    gets exactly the call of that handler on the request, result and
    effects as they are. *)
Theorem handle_exact_match_or_not_found this req s :
  (routes this !! method req = None ->
     handle URL_parse this req s = (Normal (new_Response "404 INVALID"), s)) /\
  (forall u, URL_parse (url req) = Some u ->
     (bound this (method req) (pathname u) = None ->
        handle URL_parse this req s = (Normal (new_Response "404 INVALID"), s)) /\
     (forall handler, bound this (method req) (pathname u) = Some handler ->
        handle URL_parse this req s = handler req s)).
Proof.
  split; [apply handle_unknown_method|].
  intros u Hu. rewrite (handle_parsed _ _ _ _ Hu).
  split; [intros ->; reflexivity | intros handler ->; reflexivity].
Qed.

End facts.

(** Witness of C7 on the sample router: "GET /" is taken by [hello], a
    second registration is refused; on the empty router it is accepted. *)
Lemma route_first_registration_wins_witness :
  (route "GET" "/" samples.other samples.hello_router =
     (Normal false, samples.hello_router) /\
   bound (snd (route "GET" "/" samples.other samples.hello_router)) "GET" "/" =
     Some samples.hello) /\
  exists this',
    route "GET" "/" samples.hello new_Router = (Normal true, this') /\
    bound this' "GET" "/" = Some samples.hello /\
    forall m p, (m, p) <> ("GET", "/") -> bound this' m p = bound new_Router m p.
Proof.
  split.
  - apply (proj1 (route_first_registration_wins
                    samples.hello_router "GET" "/" samples.other) samples.hello).
    reflexivity.
  - apply (proj2 (route_first_registration_wins
                    new_Router "GET" "/" samples.hello)).
    reflexivity.
Defined.

(** Witness of X28 on the sample router: "GET /" runs [hello] once,
    "GET /missing" and "POST /" get the fixed answer and run nothing. *)
Lemma handle_exact_match_or_not_found_witness :
  handle samples.URL_parse samples.hello_router samples.get_root 0 =
    (Normal (new_Response "Hello, World!"), 1) /\
  handle samples.URL_parse samples.hello_router samples.get_missing 0 =
    (Normal (new_Response "404 INVALID"), 0) /\
  handle samples.URL_parse samples.hello_router samples.post_root 0 =
    (Normal (new_Response "404 INVALID"), 0).
Proof.
  split; [|split].
  - apply (proj2 (proj2 (handle_exact_match_or_not_found samples.URL_parse
                           samples.hello_router samples.get_root 0)
                    {| pathname := "/" |} eq_refl) samples.hello).
    reflexivity.
  - apply (proj1 (proj2 (handle_exact_match_or_not_found samples.URL_parse
                           samples.hello_router samples.get_missing 0)
                    {| pathname := "/missing" |} eq_refl)).
    reflexivity.
  - apply (proj1 (handle_exact_match_or_not_found samples.URL_parse
                    samples.hello_router samples.post_root 0)).
    reflexivity.
Defined.

(** C8, at the failing input: on the sample router a request for an
    unregistered path and one for an unregistered method both get the
    response made by [new Response("404 INVALID")]; its body says 404
    but its status is the default 200, which is no client error, while
    the default error handler beside it sets its status, 500, itself. *)
Theorem handle_not_found_has_status_200 :
  handle samples.URL_parse samples.hello_router samples.get_missing 0 =
    (Normal (new_Response "404 INVALID"), 0) /\
  handle samples.URL_parse samples.hello_router samples.post_root 0 =
    (Normal (new_Response "404 INVALID"), 0) /\
  status (new_Response "404 INVALID") = 200%Z /\
  classes.is_client_error (new_Response "404 INVALID") = false /\
  exists response,
    torchflower.default_error_handler (S:=nat) (Error "") 0 = (Normal response, 0) /\
    status response = 500%Z.
Proof.
  repeat split. eexists. split; reflexivity.
Qed.

End router_spec.

(** ** Properties of the application object *)

Module torchflower_spec.

Import router torchflower.

Section facts.
Context {S : Type}.
Implicit Types (this : Torchflower S) (handler : exn -> M S Response).

(** After [serve] the flag is up exactly when [Bun.serve] did not throw,
    whatever the callback did. *)
Lemma serve_listening (Bun_serve : Server S -> M S unit)
    (port : option Z) (on : M S unit) this (s : S) :
  listening this = false ->
  listening (fst (snd (serve Bun_serve port on (this, s)))) =
  negb (throws (Bun_serve {| port := default 3000%Z port;
                             error := error_handler this |} s)).
Proof.
  intros Hl. unfold serve.
  destruct (Bun_serve _ s) as [[[]|e] s1]; simpl; [|exact Hl].
  destruct (on s1) as [r s']. reflexivity.
Qed.

(** C10: [set_error_handler(handler)] stores the handler only when
    [listening] is already true; while it is false the object is left
    exactly as it was, so on a new application the default 500 handler
    stays; the router, the server and the flag are never changed. *)
Theorem set_error_handler_only_when_listening handler this :
  error_handler (set_error_handler handler this) =
    (if listening this then handler else error_handler this) /\
  set_error_handler handler this =
    (if listening this
     then {| router := router this;
             error_handler := handler;
             server := server this;
             listening := true |}
     else this) /\
  router (set_error_handler handler this) = router this /\
  server (set_error_handler handler this) = server this /\
  listening (set_error_handler handler this) = listening this /\
  set_error_handler handler new_Torchflower = new_Torchflower /\
  error_handler (set_error_handler handler new_Torchflower) = default_error_handler.
Proof.
  unfold set_error_handler. destruct (listening this) eqn:E; simpl;
    rewrite ?E; repeat split; reflexivity.
Qed.

End facts.

End torchflower_spec.

(** ** Further properties of the guards: literals, [and], nesting *)

Module guard_laws.

Import guard classes.

Section facts.
Context {S : Type}.
Implicit Types (g a b c : validator S) (x r L : value) (s : S).

Lemma strict_equals_typeof L x :
  strict_equals L x = true -> typeof x = typeof L.
Proof. destruct L, x; simpl; intros H; try discriminate; reflexivity. Qed.

Lemma strict_equals_plain L x :
  plain_literal L = true -> (strict_equals L x = true <-> x = L).
Proof.
  intros HL. destruct L; try discriminate; destruct x; simpl; split; intros H;
    try discriminate; try reflexivity.
  - apply Bool.eqb_prop in H. congruence.
  - injection H as ->. apply Bool.eqb_reflx.
  - apply Z.eqb_eq in H. congruence.
  - injection H as ->. apply Z.eqb_refl.
  - apply String.eqb_eq in H. congruence.
  - injection H as ->. apply String.eqb_refl.
Qed.

(** [literal(L)] is one strict comparison. *)
Lemma literal_eq L x s :
  literal L x s =
  if strict_equals L x then (Normal x, s) else (Throw (Error ""), s).
Proof.
  unfold literal, assert, bind, ret, throw. simpl.
  destruct (strict_equals L x); reflexivity.
Qed.

(** X1: [literal(L)] never coerces: whenever [literal(L)(x)] returns, it
    returns [x] itself, leaves the state alone, and [x] has the type tag
    of [L]; so [literal(0)("0")] throws. *)
Theorem literal_returns_same_tag L x r s s' :
  literal L x s = (Normal r, s') ->
  r = x /\ s' = s /\ typeof x = typeof L /\ strict_equals L x = true.
Proof.
  rewrite literal_eq. destruct (strict_equals L x) eqn:E; [|discriminate].
  intros H. injection H as <- <-.
  repeat split. apply strict_equals_typeof. exact E.
Qed.

(** X2: for a literal that is [undefined], [null], a boolean, a bigint or
    a string, [literal(L)(x)] returns exactly when [x] is [L], and throws
    otherwise. *)
Theorem literal_plain_accepts_only_itself L x s :
  plain_literal L = true ->
  (literal L x s = (Normal x, s) <-> x = L) /\
  (throws (literal L x s) = true <-> x <> L).
Proof.
  intros HL. rewrite literal_eq.
  pose proof (strict_equals_plain L x HL) as E.
  destruct (strict_equals L x).
  - assert (x = L) by (apply E; reflexivity). simpl.
    split; split; intros; try reflexivity; try assumption;
      try discriminate; contradiction.
  - assert (x <> L) by (intros Hx; apply E in Hx; discriminate). simpl.
    split; split; intros; try reflexivity; try assumption;
      try discriminate; contradiction.
Qed.

(** X3: [literal(NaN)] throws on every input, [NaN] included, since [NaN]
    is not strictly equal to anything; and [literal(+0)] takes [-0],
    handing back the [-0] it was given, not the literal. *)
Theorem literal_NaN_rejects_all x s :
  literal (VNumber S754_nan) x s = (Throw (Error ""), s) /\
  literal (VNumber (S754_zero false)) (VNumber (S754_zero true)) s =
    (Normal (VNumber (S754_zero true)), s).
Proof.
  rewrite !literal_eq. split; [|reflexivity].
  destruct x; reflexivity.
Qed.

(** X4: [string_literal(L)(x)] returns exactly when [x] is the string
    [L], then it returns that string and leaves the state alone; on
    anything else it throws; it is [literal] at the string. *)
Theorem string_literal_accepts_only_its_string (L : String.string) x s :
  string_literal L x s =
    (if strict_equals (VString L) x then (Normal (VString L), s)
     else (Throw (Error ""), s)) /\
  (string_literal L x s = (Normal x, s) <-> x = VString L) /\
  string_literal L x s = literal (VString L) x s.
Proof.
  assert (Hl : string_literal L x s = literal (VString L) x s) by reflexivity.
  pose proof (strict_equals_plain (VString L) x eq_refl) as E.
  rewrite Hl, literal_eq.
  destruct (strict_equals (VString L) x).
  - rewrite (proj1 E eq_refl). repeat split; reflexivity.
  - repeat split; try reflexivity; intros H; [discriminate|].
    apply E in H. discriminate.
Qed.

(** [or], branch by branch. *)
Lemma or_branches a b x s :
  or a b x s =
  if yields_truthy a x s then (Normal x, state_after a x s)
  else if yields_truthy b x (state_after a x s)
       then (Normal x, state_after b x (state_after a x s))
       else (Throw (Error "Union check failed"),
             state_after b x (state_after a x s)).
Proof.
  unfold or, bind, check, try_catch, ret, throw, yields_truthy, state_after.
  destruct (a x s) as [[ra|ea] sa]; simpl.
  - destruct (ToBoolean ra); [reflexivity|].
    destruct (b x sa) as [[rb|eb] sb]; simpl; [|reflexivity].
    destruct (ToBoolean rb); reflexivity.
  - destruct (b x sa) as [[rb|eb] sb]; simpl; [|reflexivity].
    destruct (ToBoolean rb); reflexivity.
Qed.

Lemma yields_truthy_or a b x s :
  yields_truthy (or a b) x s =
  ToBoolean x && (yields_truthy a x s || yields_truthy b x (state_after a x s)).
Proof.
  unfold yields_truthy at 1. rewrite or_branches.
  destruct (yields_truthy a x s); simpl; [rewrite andb_true_r; reflexivity|].
  destruct (yields_truthy b x (state_after a x s)); simpl;
    [rewrite andb_true_r | rewrite andb_false_r]; reflexivity.
Qed.

Lemma state_after_or a b x s :
  state_after (or a b) x s =
  if yields_truthy a x s then state_after a x s
  else state_after b x (state_after a x s).
Proof.
  unfold state_after at 1. rewrite or_branches.
  destruct (yields_truthy a x s); [reflexivity|].
  destruct (yields_truthy b x (state_after a x s)); reflexivity.
Qed.

Lemma yields_truthy_and a b x s :
  yields_truthy (and a b) x s =
  ToBoolean x && (yields_truthy a x s && yields_truthy b x (state_after a x s)).
Proof.
  unfold yields_truthy at 1. rewrite guard_spec.and_eq.
  destruct (yields_truthy a x s); simpl; [|rewrite andb_false_r; reflexivity].
  destruct (yields_truthy b x (state_after a x s)); simpl;
    [rewrite andb_true_r | rewrite andb_false_r]; reflexivity.
Qed.

Lemma state_after_and a b x s :
  state_after (and a b) x s =
  if yields_truthy a x s then state_after b x (state_after a x s)
  else state_after a x s.
Proof.
  unfold state_after at 1. rewrite guard_spec.and_eq.
  destruct (yields_truthy a x s); [|reflexivity].
  destruct (yields_truthy b x (state_after a x s)); reflexivity.
Qed.


(** X5: [and(a, b)(x)] returns exactly when [a] and then [b], each under
    [check], give a truthy value; what it returns is the argument [x];
    when [a] does not give a truthy value it throws "Intersection check
    failed" in the state [a] left, [b] not having run. *)
Theorem and_both_truthy_returns_argument a b x s :
  (throws (and a b x s) = false <->
     yields_truthy a x s = true /\
     yields_truthy b x (state_after a x s) = true) /\
  (forall r s', and a b x s = (Normal r, s') ->
     r = x /\ s' = state_after b x (state_after a x s)) /\
  (yields_truthy a x s = false ->
     and a b x s = (Throw (Error "Intersection check failed"), state_after a x s)) /\
  (throws (and a b x s) = true ->
     exists s', and a b x s = (Throw (Error "Intersection check failed"), s')).
Proof.
  rewrite guard_spec.and_eq.
  destruct (yields_truthy a x s); [destruct (yields_truthy b x _)|]; simpl;
    repeat split; intros; try discriminate; try reflexivity;
    try (destruct H; discriminate); try congruence; eauto.
Qed.

(** X6: on a truthy argument [or] is associative: [or(or(a, b), c)] and
    [or(a, or(b, c))] return or throw alike and run the same validators
    in the same order. *)
Theorem or_assoc_truthy a b c x s :
  ToBoolean x = true ->
  or (or a b) c x s = or a (or b c) x s.
Proof.
  intros Hx.
  rewrite (or_branches (or a b) c), (or_branches a (or b c)).
  rewrite !yields_truthy_or, !state_after_or, Hx. simpl.
  destruct (yields_truthy a x s); simpl; [reflexivity|].
  destruct (yields_truthy b x (state_after a x s)); simpl; [reflexivity|].
  destruct (yields_truthy c x _); reflexivity.
Qed.

(** X7: on a truthy argument [and] is associative as well. *)
Theorem and_assoc_truthy a b c x s :
  ToBoolean x = true ->
  and (and a b) c x s = and a (and b c) x s.
Proof.
  intros Hx.
  rewrite (guard_spec.and_eq (and a b) c), (guard_spec.and_eq a (and b c)).
  rewrite !yields_truthy_and, !state_after_and, Hx. simpl.
  destruct (yields_truthy a x s); simpl; [|reflexivity].
  destruct (yields_truthy b x (state_after a x s)); simpl; [|reflexivity].
  destruct (yields_truthy c x _); reflexivity.
Qed.

(** The validators of the library that hand back their argument. *)
Lemma narrowing_primitive p : narrowing (S:=S) (primitive_validator p).
Proof.
  intros x s r s'. rewrite guard_spec.primitive_validator_eq.
  destruct (String.eqb _ _); congruence.
Qed.

Lemma narrowing_literal L : narrowing (S:=S) (literal L).
Proof.
  intros x s r s'. rewrite literal_eq.
  destruct (strict_equals L x); congruence.
Qed.

Lemma narrowing_string_literal (L : String.string) :
  narrowing (S:=S) (string_literal L).
Proof. exact (narrowing_literal (VString L)). Qed.

Lemma narrowing_or a b : narrowing (or a b).
Proof.
  intros x s r s'. rewrite or_branches.
  destruct (yields_truthy a x s); [congruence|].
  destruct (yields_truthy b x _); congruence.
Qed.

Lemma narrowing_and a b : narrowing (and a b).
Proof.
  intros x s r s'. rewrite guard_spec.and_eq.
  destruct (yields_truthy a x s); [|congruence].
  destruct (yields_truthy b x _); congruence.
Qed.

Lemma narrowing_falsy g x s :
  narrowing g -> ToBoolean x = false -> yields_truthy g x s = false.
Proof.
  intros Hg Hx. unfold yields_truthy.
  destruct (g x s) as [[r|e] s'] eqn:E; [|reflexivity].
  rewrite (Hg _ _ _ _ E). exact Hx.
Qed.

(** X8: every primitive validator, [literal(L)], [string_literal(L)],
    [or(a, b)] and [and(a, b)], whatever [a] and [b] are, hands back its
    argument whenever it returns. *)
Theorem library_validators_narrowing p L (L' : String.string) a b :
  narrowing (S:=S) (primitive_validator p) /\
  narrowing (S:=S) (literal L) /\
  narrowing (S:=S) (string_literal L') /\
  narrowing (or a b) /\
  narrowing (and a b).
Proof.
  repeat split.
  - apply narrowing_primitive.
  - apply narrowing_literal.
  - apply narrowing_string_literal.
  - apply narrowing_or.
  - apply narrowing_and.
Qed.

(** X9: a falsy argument (0, -0, NaN, the empty string, [false], [null],
    [undefined], [0n]) is refused by [or(a, b)] and by [and(a, b)] as soon
    as [a] and [b] hand back their argument, whatever they check: the
    value they return is the falsy argument, and it counts as a failure. *)
Theorem or_and_refuse_falsy a b x s :
  narrowing a -> narrowing b -> ToBoolean x = false ->
  or a b x s =
    (Throw (Error "Union check failed"), state_after b x (state_after a x s)) /\
  and a b x s =
    (Throw (Error "Intersection check failed"), state_after a x s).
Proof.
  intros Ha Hb Hx. rewrite or_branches, guard_spec.and_eq.
  rewrite !(narrowing_falsy a), !(narrowing_falsy b) by assumption.
  split; reflexivity.
Qed.

(** What a primitive validator shows to [or] and [and]. *)
Lemma yields_truthy_primitive p x s :
  yields_truthy (primitive_validator p) x s =
  String.eqb (typeof x) (expected_tag p) && ToBoolean x.
Proof.
  unfold yields_truthy. rewrite guard_spec.primitive_validator_eq.
  destruct (String.eqb _ _); reflexivity.
Qed.

Lemma state_after_primitive p x s :
  state_after (primitive_validator p) x s = s.
Proof.
  unfold state_after. rewrite guard_spec.primitive_validator_eq.
  destruct (String.eqb _ _); reflexivity.
Qed.

(** X10: a union of two primitive kinds takes exactly the truthy values
    of either kind: [or(p, q)(x)] returns [x] when [x] is truthy and
    [typeof x] is the tag of [p] or of [q], and throws "Union check
    failed" otherwise, so [or(string, number)] refuses "" and 0. *)
Theorem or_primitives p q x s :
  or (primitive_validator p) (primitive_validator q) x s =
  if ToBoolean x &&
     (String.eqb (typeof x) (expected_tag p) || String.eqb (typeof x) (expected_tag q))
  then (Normal x, s)
  else (Throw (Error "Union check failed"), s).
Proof.
  rewrite or_branches, !yields_truthy_primitive, !state_after_primitive.
  destruct (String.eqb (typeof x) (expected_tag p)),
           (String.eqb (typeof x) (expected_tag q)),
           (ToBoolean x); reflexivity.
Qed.

Lemma expected_tag_inj p q : expected_tag p = expected_tag q -> p = q.
Proof. destruct p, q; simpl; intros H; try reflexivity; discriminate. Qed.

(** X11: an intersection of two different primitive kinds is empty:
    [and(p, q)(x)] throws "Intersection check failed" on every [x], the
    state untouched; and [and(p, p)] takes the truthy values of kind
    [p]. *)
Theorem and_primitives p q x s :
  (p <> q ->
     and (primitive_validator p) (primitive_validator q) x s =
       (Throw (Error "Intersection check failed"), s)) /\
  and (primitive_validator p) (primitive_validator p) x s =
    (if ToBoolean x && String.eqb (typeof x) (expected_tag p)
     then (Normal x, s)
     else (Throw (Error "Intersection check failed"), s)).
Proof.
  rewrite !guard_spec.and_eq, !yields_truthy_primitive, !state_after_primitive.
  split.
  - intros Hpq.
    destruct (String.eqb (typeof x) (expected_tag p)) eqn:Ep; simpl; [|reflexivity].
    destruct (String.eqb (typeof x) (expected_tag q)) eqn:Eq; simpl;
      [|destruct (ToBoolean x); reflexivity].
    apply String.eqb_eq in Ep, Eq. exfalso. apply Hpq, expected_tag_inj. congruence.
  - destruct (String.eqb (typeof x) (expected_tag p)), (ToBoolean x); reflexivity.
Qed.

(** X12: [check] is idempotent, and wrapping the branches of [or] or
    [and] in [check] changes nothing, both combinators applying it
    themselves. *)
Theorem check_idempotent_and_absorbed a b x s :
  check (check a) x s = check a x s /\
  or (check a) (check b) x s = or a b x s /\
  and (check a) (check b) x s = and a b x s.
Proof.
  unfold or, and, check, bind, try_catch, ret, throw.
  destruct (a x s) as [[ra|ea] sa]; simpl;
    repeat split; try reflexivity;
    try (destruct (ToBoolean ra); simpl; try reflexivity);
    destruct (b x sa) as [[rb|eb] sb]; reflexivity.
Qed.

(** [record], by the tag of its argument. *)
Lemma record_eq g x s :
  record g x s =
    (if String.eqb (typeof x) "object" then g x s else (Throw (Error ""), s)).
Proof.
  destruct (String.eqb (typeof x) "object") eqn:E.
  - apply guard_spec.record_delegates, String.eqb_eq, E.
  - apply guard_spec.record_rejects_other_tags, String.eqb_neq, E.
Qed.

(** X13: [record(guard)(x)] throws, the shape closure not run, on every
    [x] whose type tag is not "object" (so on [undefined], booleans,
    numbers, bigints, strings, symbols and functions), and is the call
    [guard(x)], result, throw and effects, on every [x] tagged
    "object". *)
Theorem record_tag_object_or_throw g x s :
  record g x s =
    (if String.eqb (typeof x) "object" then g x s else (Throw (Error ""), s)) /\
  (String.eqb (typeof x) "object" = false <->
     match x with VNull | VObject _ _ => False | _ => True end).
Proof.
  split; [apply record_eq|].
  destruct x; simpl; split; intros H; try reflexivity; try exact I;
    try discriminate; contradiction.
Qed.

End facts.

(** Witness of X1: [literal(true)(true)] returns [true]. *)
Lemma literal_returns_same_tag_witness :
  literal (VBoolean true) (VBoolean true) tt = (Normal (VBoolean true), tt) /\
  VBoolean true = VBoolean true /\ tt = tt /\
  typeof (VBoolean true) = typeof (VBoolean true) /\
  strict_equals (VBoolean true) (VBoolean true) = true.
Proof.
  split; [reflexivity|].
  apply (literal_returns_same_tag (S:=unit) (VBoolean true) (VBoolean true)
           (VBoolean true) tt tt).
  reflexivity.
Defined.

(** Witness of X2: [literal(null)] on [undefined]. *)
Lemma literal_plain_accepts_only_itself_witness :
  (literal VNull VUndefined tt = (Normal VUndefined, tt) <-> VUndefined = VNull) /\
  (throws (literal VNull VUndefined tt) = true <-> VUndefined <> VNull).
Proof.
  apply (literal_plain_accepts_only_itself (S:=unit) VNull VUndefined tt).
  reflexivity.
Defined.

(** Witness of X6 and X7: three string literals on the string "Low". *)
Lemma or_assoc_truthy_witness :
  or (or (string_literal "Critical") (string_literal "Medium"))
     (string_literal "Low") (VString "Low") tt =
  or (string_literal "Critical")
     (or (string_literal "Medium") (string_literal "Low")) (VString "Low") tt.
Proof. apply or_assoc_truthy. reflexivity. Defined.

Lemma and_assoc_truthy_witness :
  and (and string (string_literal "Low")) (literal (VString "Low"))
      (VString "Low") tt =
  and string (and (string_literal "Low") (literal (VString "Low")))
      (VString "Low") tt.
Proof. apply and_assoc_truthy. reflexivity. Defined.

(** Without the hypothesis of X6 the two nestings differ: on 0, with a
    first branch that answers "yes". *)
Example or_not_assoc_falsy :
  or (or (samples.always (VString "yes")) number) string samples.zero tt =
    (Throw (Error "Union check failed"), tt) /\
  or (samples.always (VString "yes")) (or number string) samples.zero tt =
    (Normal samples.zero, tt).
Proof. split; reflexivity. Qed.

(** Witness of X9: [or(literal(false), literal(true))] refuses [false],
    and so does [and(boolean, literal(false))]. *)
Lemma or_and_refuse_falsy_witness :
  or (literal (VBoolean false)) (literal (VBoolean true)) (VBoolean false) tt =
    (Throw (Error "Union check failed"), tt) /\
  and (literal (VBoolean false)) (literal (VBoolean true)) (VBoolean false) tt =
    (Throw (Error "Intersection check failed"), tt).
Proof.
  apply (or_and_refuse_falsy (literal (VBoolean false)) (literal (VBoolean true))
           (VBoolean false) tt).
  - apply narrowing_literal.
  - apply narrowing_literal.
  - reflexivity.
Defined.

(** Witness of X11: [and(string, number)] on a string. *)
Lemma and_primitives_witness :
  and string number (VString "5") tt =
    (Throw (Error "Intersection check failed"), tt).
Proof.
  apply (proj1 (and_primitives (S:=unit) PString PNumber (VString "5") tt)).
  discriminate.
Defined.

(** Witness of X5: [and(string, string)] returns on a string, and
    [and(number, string)] throws on it without running [string]. *)
Lemma and_both_truthy_returns_argument_witness :
  (and string string (VString "x") tt = (Normal (VString "x"), tt) /\
   VString "x" = VString "x" /\ tt = tt) /\
  and number string (VString "x") tt =
    (Throw (Error "Intersection check failed"), tt).
Proof.
  split; [split; [reflexivity|]|].
  - apply (proj1 (proj2 (and_both_truthy_returns_argument (S:=unit)
                           string string (VString "x") tt)) (VString "x") tt).
    reflexivity.
  - apply (proj1 (proj2 (proj2 (and_both_truthy_returns_argument (S:=unit)
                                  number string (VString "x") tt)))).
    reflexivity.
Defined.

End guard_laws.

(** ** Further properties of the route table *)

Module router_laws.

Import router classes router_spec.

Section facts.
Context {S : Type}.
Variable URL_parse : String.string -> option URL.
Implicit Types (this : Router S) (handler first : Handler S) (req : Request) (s : S).

(** The router [route] leaves behind. *)
Lemma route_state this method path handler :
  snd (route method path handler this) =
  match bound this method path with
  | Some _ => this
  | None =>
      {| routes := <[method := <[path := handler]> (default ∅ (routes this !! method))]>
                     (routes this) |}
  end.
Proof.
  destruct (bound this method path) as [first|] eqn:E.
  - rewrite (route_taken _ _ _ _ _ E). reflexivity.
  - rewrite (route_free _ _ _ _ E). reflexivity.
Qed.

(** [route] seen through [bound]: a binding is added where there was
    none, nothing else moves. *)
Lemma bound_route this method path handler m p :
  bound (snd (route method path handler this)) m p =
  match bound this m p with
  | Some first => Some first
  | None => if decide (m = method /\ p = path) then Some handler else None
  end.
Proof.
  rewrite route_state.
  destruct (bound this method path) as [first|] eqn:E.
  - destruct (bound this m p) eqn:E'; [reflexivity|].
    rewrite decide_False; [reflexivity|]. intros [-> ->]. congruence.
  - rewrite bound_insert. destruct (decide (m = method /\ p = path)) as [[-> ->]|].
    + rewrite E. reflexivity.
    + destruct (bound this m p); reflexivity.
Qed.

(** Which methods have a table after [route]. *)
Lemma has_table_route this method path handler m :
  has (routes (snd (route method path handler this))) m =
  has (routes this) m || bool_decide (m = method).
Proof.
  rewrite route_state.
  destruct (bound this method path) as [first|] eqn:E.
  - unfold bound in E.
    destruct (bool_decide_reflect (m = method)) as [->|]; [|rewrite orb_false_r; reflexivity].
    destruct (routes this !! method) eqn:Em; [|discriminate].
    assert (H : has (routes this) method = true) by (apply has_true; eauto).
    rewrite H. reflexivity.
  - simpl. unfold has.
    destruct (bool_decide_reflect (m = method)) as [->|Hne].
    + rewrite lookup_insert_eq, orb_true_r. apply bool_decide_eq_true. eauto.
    + rewrite lookup_insert_ne by auto. rewrite orb_false_r. reflexivity.
Qed.


(** Two routers with the same tables and the same bindings are the same
    router. *)
Lemma router_ext this1 this2 :
  (forall m, has (routes this1) m = has (routes this2) m) ->
  (forall m p, bound this1 m p = bound this2 m p) ->
  this1 = this2.
Proof.
  destruct this1 as [r1], this2 as [r2]. unfold has, bound. simpl.
  intros Hhas Hb. f_equal. apply map_eq. intros m.
  specialize (Hhas m). specialize (Hb m).
  destruct (r1 !! m) as [i1|] eqn:E1, (r2 !! m) as [i2|] eqn:E2; simpl in *.
  - f_equal. apply map_eq. exact Hb.
  - discriminate.
  - discriminate.
  - reflexivity.
Qed.

(** [handle], from the two observations of a router. *)
Lemma handle_eq this req s :
  handle URL_parse this req s =
  if negb (has (routes this) (method req))
  then (Normal (new_Response "404 INVALID"), s)
  else match URL_parse (url req) with
       | None => (Throw (TypeError "Invalid URL"), s)
       | Some u =>
           match bound this (method req) (pathname u) with
           | Some handler => handler req s
           | None => (Normal (new_Response "404 INVALID"), s)
           end
       end.
Proof.
  destruct (URL_parse (url req)) as [u|] eqn:Eu.
  - rewrite (handle_parsed URL_parse _ _ _ _ Eu).
    destruct (has (routes this) (method req)) eqn:Eh; simpl; [reflexivity|].
    apply has_false in Eh. unfold bound. rewrite Eh. reflexivity.
  - unfold handle, new_URL, bind, throw, has. rewrite Eu.
    destruct (routes this !! method req) eqn:Em.
    + rewrite bool_decide_eq_true_2 by eauto. reflexivity.
    + rewrite bool_decide_eq_false_2 by (intros [? ?]; discriminate). reflexivity.
Qed.

(** The answer of [route]. *)
Lemma route_answer this method path handler :
  fst (route method path handler this) =
    Normal (match bound this method path with Some _ => false | None => true end).
Proof.
  destruct (bound this method path) as [first|] eqn:E.
  - rewrite (route_taken _ _ _ _ _ E). reflexivity.
  - rewrite (route_free _ _ _ _ E). reflexivity.
Qed.

Lemma route_keeps_bindings this method path handler :
  (forall m p first,
     bound this m p = Some first ->
     bound (snd (route method path handler this)) m p = Some first) /\
  is_Some (bound (snd (route method path handler this)) method path).
Proof.
  split.
  - intros m p first H. rewrite bound_route, H. reflexivity.
  - rewrite bound_route. destruct (bound this method path); [eauto|].
    rewrite decide_True by auto. eauto.
Qed.

(** X14: [route] never throws: it answers [true] when the (method, path)
    pair was free and [false] when it was bound; and a pair that was
    bound, this one or any other, is bound to the same handler
    afterwards. *)
Theorem route_never_throws_never_rebinds this method path handler :
  fst (route method path handler this) =
    Normal (match bound this method path with Some _ => false | None => true end) /\
  (forall m p first,
     bound this m p = Some first ->
     bound (snd (route method path handler this)) m p = Some first) /\
  is_Some (bound (snd (route method path handler this)) method path).
Proof.
  split; [apply route_answer | apply route_keeps_bindings].
Qed.

Lemma handle_route this method path handler req u s :
  router.method req = method ->
  URL_parse (url req) = Some u ->
  pathname u = path ->
  handle URL_parse (snd (route method path handler this)) req s =
    match bound this method path with
    | Some first => first req s
    | None => handler req s
    end.
Proof.
  intros Hm Hu Hp. rewrite (handle_parsed URL_parse _ _ _ _ Hu), Hm, Hp.
  rewrite bound_route. destruct (bound this method path); [reflexivity|].
  rewrite decide_True by auto. reflexivity.
Qed.

(** X15: registration, then dispatch: after [route(method, path, handler)]
    a request with that method whose URL has that path is answered by the
    call of the handler bound first, [handler] itself if the pair was
    free. *)
Theorem handle_after_route this method path handler req u s :
  router.method req = method ->
  URL_parse (url req) = Some u ->
  pathname u = path ->
  handle URL_parse (snd (route method path handler this)) req s =
    match bound this method path with
    | Some first => first req s
    | None => handler req s
    end.
Proof.
  intros Hm Hu Hp. rewrite handle_eq, Hu, Hm, Hp.
  assert (Ht : has (routes (snd (route method path handler this))) method = true).
  { rewrite has_table_route, bool_decide_eq_true_2 by reflexivity.
    apply orb_true_r. }
  rewrite Ht, bound_route. simpl.
  destruct (bound this method path); [reflexivity|].
  rewrite decide_True by auto. reflexivity.
Qed.

(** X16: registrations of two different (method, path) pairs commute:
    either order leaves the same router and gets the same answers. *)
Theorem route_commute this m1 p1 h1 m2 p2 h2 :
  (m1, p1) <> (m2, p2) ->
  snd (route m2 p2 h2 (snd (route m1 p1 h1 this))) =
    snd (route m1 p1 h1 (snd (route m2 p2 h2 this))) /\
  fst (route m2 p2 h2 (snd (route m1 p1 h1 this))) = fst (route m2 p2 h2 this) /\
  fst (route m1 p1 h1 (snd (route m2 p2 h2 this))) = fst (route m1 p1 h1 this).
Proof.
  intros Hne. split; [|split].
  - apply router_ext.
    + intros m. rewrite !has_table_route.
      destruct (has (routes this) m), (bool_decide (m = m1)), (bool_decide (m = m2));
        reflexivity.
    + intros m p. rewrite !bound_route.
      destruct (bound this m p); [reflexivity|].
      destruct (decide (m = m1 /\ p = p1)) as [[E1 E2]|],
               (decide (m = m2 /\ p = p2)) as [[E3 E4]|]; try reflexivity.
      exfalso. apply Hne. congruence.
  - rewrite !route_answer.
    rewrite bound_route. destruct (bound this m2 p2); [reflexivity|].
    rewrite decide_False; [reflexivity|]. intros [-> ->]. apply Hne. reflexivity.
  - rewrite !route_answer.
    rewrite bound_route. destruct (bound this m1 p1); [reflexivity|].
    rewrite decide_False; [reflexivity|]. intros [-> ->]. apply Hne. reflexivity.
Qed.


(** X17: the method is looked up before the URL is parsed: when the
    method has a table and [new URL(req.url)] throws, [handle] throws
    that [TypeError] and no handler runs; when the method has no table
    the URL is not parsed at all and the answer is the fixed one. *)
Theorem handle_unparsable_url this req s :
  URL_parse (url req) = None ->
  handle URL_parse this req s =
    if has (routes this) (method req)
    then (Throw (TypeError "Invalid URL"), s)
    else (Normal (new_Response "404 INVALID"), s).
Proof.
  intros Hu. rewrite handle_eq, Hu.
  destruct (has (routes this) (method req)); reflexivity.
Qed.

Lemma route_all_cons method path handler
    (calls : list (String.string * String.string * Handler S)) this :
  route_all ((method, path, handler) :: calls) this =
  route_all calls (snd (route method path handler this)).
Proof. reflexivity. Qed.

Lemma no_empty_table_route this method path handler :
  no_empty_table this -> no_empty_table (snd (route method path handler this)).
Proof.
  intros Hwf m inner. rewrite route_state.
  destruct (bound this method path); [apply Hwf|]. simpl.
  destruct (decide (m = method)) as [->|Hne].
  - rewrite lookup_insert_eq. intros [= <-]. apply insert_non_empty.
  - rewrite lookup_insert_ne by auto. apply Hwf.
Qed.

(** X18: a router built from the empty one by registrations has no empty
    table; so a method has a table exactly when some path is bound under
    it, and [handle] answers without parsing the URL exactly for the
    methods under which nothing was registered. *)
Theorem route_all_no_empty_table
    (calls : list (String.string * String.string * Handler S)) method :
  no_empty_table (route_all calls (new_Router (S:=S))) /\
  (routes (route_all calls new_Router) !! method = None <->
   forall path, bound (route_all calls new_Router) method path = None).
Proof.
  assert (Hwf : forall this, no_empty_table this -> no_empty_table (route_all calls this)).
  { induction calls as [|[[m p] h] calls IH]; intros this H; [exact H|].
    rewrite route_all_cons. apply IH, no_empty_table_route, H. }
  assert (H0 : no_empty_table (new_Router (S:=S))).
  { intros m inner. unfold new_Router. simpl. rewrite lookup_empty. discriminate. }
  specialize (Hwf _ H0). split; [exact Hwf|].
  unfold bound. split.
  - intros -> path. reflexivity.
  - intros H. destruct (routes (route_all calls new_Router) !! method) as [inner|] eqn:E;
      [|reflexivity].
    exfalso. apply (Hwf _ _ E). apply map_empty. exact H.
Qed.

(** X19: no run of registrations replaces or removes a binding: a pair
    bound before the run is bound to the same handler after it, and
    every pair the run registers is bound after it. *)
Theorem route_all_keeps_bindings
    (calls : list (String.string * String.string * Handler S)) this :
  (forall m p first,
     bound this m p = Some first -> bound (route_all calls this) m p = Some first) /\
  (forall m p h, In (m, p, h) calls -> is_Some (bound (route_all calls this) m p)).
Proof.
  revert this. induction calls as [|[[m0 p0] h0] calls IH]; intros this.
  - split; [intros; assumption | intros m p h []].
  - rewrite route_all_cons.
    destruct (IH (snd (route m0 p0 h0 this))) as [IH1 IH2].
    destruct (route_keeps_bindings this m0 p0 h0) as [K1 K2].
    split.
    + intros m p first H. apply IH1, K1, H.
    + intros m p h [E|Hin]; [|eapply IH2, Hin].
      injection E as <- <- <-. destruct K2 as [f Hf]. rewrite (IH1 _ _ _ Hf). eauto.
Qed.

End facts.

(** Witness of X14: the binding of the sample router is still there after
    a registration for "POST /". *)
Lemma route_never_throws_never_rebinds_witness :
  bound (snd (route "POST" "/" samples.other samples.hello_router)) "GET" "/" =
    Some samples.hello.
Proof.
  apply (proj1 (proj2 (route_never_throws_never_rebinds
                         samples.hello_router "POST" "/" samples.other))).
  reflexivity.
Defined.

(** Witness of X15 on the sample router: [other] registered for
    "GET /missing", then that request runs it. *)
Lemma handle_after_route_witness :
  handle samples.URL_parse
    (snd (route "GET" "/missing" samples.other samples.hello_router))
    samples.get_missing 0 =
  (Normal (new_Response "other"), 1).
Proof.
  apply (handle_after_route samples.URL_parse samples.hello_router
           "GET" "/missing" samples.other samples.get_missing
           {| pathname := "/missing" |} 0);
    reflexivity.
Defined.

(** Witness of X16: "GET /" and "POST /" in either order. *)
Lemma route_commute_witness :
  snd (route "POST" "/" samples.other (snd (route "GET" "/" samples.hello new_Router))) =
    snd (route "GET" "/" samples.hello (snd (route "POST" "/" samples.other new_Router))) /\
  fst (route "POST" "/" samples.other (snd (route "GET" "/" samples.hello new_Router))) =
    fst (route "POST" "/" samples.other new_Router) /\
  fst (route "GET" "/" samples.hello (snd (route "POST" "/" samples.other new_Router))) =
    fst (route "GET" "/" samples.hello new_Router).
Proof.
  apply (route_commute new_Router "GET" "/" samples.hello "POST" "/" samples.other).
  discriminate.
Defined.

(** Witness of X17: a request on the sample router whose URL is not on
    the parser's origin. *)
Lemma handle_unparsable_url_witness :
  handle samples.URL_parse samples.hello_router
    {| method := "GET"; url := "nonsense" |} 0 =
  (Throw (TypeError "Invalid URL"), 0).
Proof.
  apply (handle_unparsable_url samples.URL_parse samples.hello_router
           {| method := "GET"; url := "nonsense" |} 0).
  reflexivity.
Defined.

(** Witness of X19: the binding of the sample router survives two more
    registrations, one of them for its own pair. *)
Lemma route_all_keeps_bindings_witness :
  bound (route_all [("GET", "/", samples.other); ("POST", "/", samples.other)]
           samples.hello_router) "GET" "/" = Some samples.hello.
Proof.
  apply (proj1 (route_all_keeps_bindings
                  [("GET", "/", samples.other); ("POST", "/", samples.other)]
                  samples.hello_router)).
  reflexivity.
Defined.

End router_laws.

(** ** Properties of the application object's methods *)

Module application_laws.

Import router torchflower application classes router_spec router_laws.

Section facts.
Context {S : Type}.
Variable URL_parse : String.string -> option URL.
Variable SocketAddress : Type.
Variable requestIP : Server S -> Request -> option SocketAddress.
Variable Bun_serve : Server S -> M S unit.
Implicit Types (this : Torchflower S) (handler first : Handler S)
  (req : Request) (s : S) (c : call (S:=S)) (cs : list (call (S:=S))).

(** A verb method never throws and only replaces the router. *)
Lemma listen_to_eq method route handler this :
  listen_to method route handler this =
  (Normal tt,
   {| router := snd (router.route method route handler (router this));
      error_handler := error_handler this;
      server := server this;
      listening := listening this |}).
Proof.
  unfold listen_to.
  pose proof (route_answer (router this) method route handler) as H.
  destruct (router.route method route handler (router this)) as [r router'].
  simpl in *. rewrite H. reflexivity.
Qed.

Lemma listen_to_registers method route handler this :
  fst (listen_to method route handler this) = Normal tt /\
  bound (router (snd (listen_to method route handler this))) method route =
    Some (match bound (router this) method route with
          | Some first => first
          | None => handler
          end) /\
  (forall m p, (m, p) <> (method, route) ->
     bound (router (snd (listen_to method route handler this))) m p =
     bound (router this) m p) /\
  error_handler (snd (listen_to method route handler this)) = error_handler this /\
  server (snd (listen_to method route handler this)) = server this /\
  listening (snd (listen_to method route handler this)) = listening this.
Proof.
  rewrite listen_to_eq. simpl. repeat split.
  - rewrite bound_route. destruct (bound (router this) method route); [reflexivity|].
    rewrite decide_True by auto. reflexivity.
  - intros m p Hne. rewrite bound_route.
    destruct (bound (router this) m p); [reflexivity|].
    rewrite decide_False; [reflexivity|]. intros [-> ->]. apply Hne. reflexivity.
Qed.

(** X20: each of [get], [head], [post], [put], [delete] and [patch]
    returns normally, binds the handler under its own method when the
    (method, path) pair is free and silently keeps the first handler
    when it is taken, leaves every other pair as it was, and does not
    touch the error handler, the server or the listening flag. *)
Theorem verbs_register_under_their_method :
  Forall
    (fun vm : (String.string -> Handler S -> M (Torchflower S) unit) * String.string =>
       forall route handler this,
         fst (fst vm route handler this) = Normal tt /\
         bound (router (snd (fst vm route handler this))) (snd vm) route =
           Some (match bound (router this) (snd vm) route with
                 | Some first => first
                 | None => handler
                 end) /\
         (forall m p, (m, p) <> (snd vm, route) ->
            bound (router (snd (fst vm route handler this))) m p =
            bound (router this) m p) /\
         error_handler (snd (fst vm route handler this)) = error_handler this /\
         server (snd (fst vm route handler this)) = server this /\
         listening (snd (fst vm route handler this)) = listening this)
    [(get, "GET"); (head, "HEAD"); (post, "POST"); (put, "PUT");
     (delete, "DELETE"); (patch, "PATCH")].
Proof.
  repeat (apply List.Forall_cons;
          [intros route handler this; apply listen_to_registers|]).
  apply List.Forall_nil.
Qed.

(** X21: registration through a verb, then a request: after
    [app.get(path, handler)] (and likewise for the five other verbs) a
    request with that method whose URL has that path is answered by the
    call of the handler bound first, [handler] itself if the pair was
    free; registering after [serve] works the same, [fetch] reading the
    router of the moment. *)
Theorem fetch_after_verb :
  Forall
    (fun vm : (String.string -> Handler S -> M (Torchflower S) unit) * String.string =>
       forall path handler this req u s,
         method req = snd vm ->
         URL_parse (url req) = Some u ->
         pathname u = path ->
         fetch URL_parse (snd (fst vm path handler this)) req s =
           match bound (router this) (snd vm) path with
           | Some first => first req s
           | None => handler req s
           end)
    [(get, "GET"); (head, "HEAD"); (post, "POST"); (put, "PUT");
     (delete, "DELETE"); (patch, "PATCH")].
Proof.
  repeat (apply List.Forall_cons;
          [simpl; intros path handler this req u s Hm Hu Hp;
           unfold get, head, post, put, delete, patch, fetch;
           rewrite listen_to_eq; simpl;
           apply (handle_route URL_parse _ _ _ _ _ u); assumption|]).
  apply List.Forall_nil.
Qed.

(** What a set-up call leaves alone. *)
Lemma run_call_frame c this :
  server (run_call c this) = server this /\
  listening (run_call c this) = listening this /\
  (listening this = false -> error_handler (run_call c this) = error_handler this).
Proof.
  destruct c; simpl;
    unfold get, head, post, put, delete, patch; rewrite ?listen_to_eq; simpl;
    try (repeat split; reflexivity).
  unfold set_error_handler. destruct (listening this) eqn:E; simpl;
    repeat split; try assumption; try reflexivity; intros; discriminate.
Qed.

Lemma run_calls_frame cs this :
  server (run_calls cs this) = server this /\
  listening (run_calls cs this) = listening this /\
  (listening this = false -> error_handler (run_calls cs this) = error_handler this).
Proof.
  revert this. induction cs as [|c cs IH]; intros this; [repeat split; reflexivity|].
  change (run_calls (c :: cs) this) with (run_calls cs (run_call c this)).
  destruct (IH (run_call c this)) as (I1 & I2 & I3).
  destruct (run_call_frame c this) as (F1 & F2 & F3).
  rewrite I1, I2, F1, F2. repeat split.
  intros Hl. rewrite I3 by (rewrite F2; exact Hl). apply F3, Hl.
Qed.

(** [serve], by the outcome of [Bun.serve]. *)
Lemma serve_eq port on this s :
  serve Bun_serve port on (this, s) =
  match Bun_serve {| port := default 3000%Z port; error := error_handler this |} s with
  | (Throw e, s1) => (Throw e, (this, s1))
  | (Normal _, s1) =>
      (fst (on s1),
       ({| router := router this;
           error_handler := error_handler this;
           server := Some {| port := default 3000%Z port;
                             error := error_handler this |};
           listening := true |},
        snd (on s1)))
  end.
Proof.
  unfold serve. destruct (Bun_serve _ s) as [[[]|e] s1]; [|reflexivity].
  destruct (on s1). reflexivity.
Qed.

(** X22: before [serve], whatever calls of [set_error_handler] and of the
    verb methods were made on a new application, it is not listening, it
    has no server, its error handler is still the default one, and
    [request_ip] answers [null]. *)
Theorem setup_keeps_default_error_handler cs req :
  listening (run_calls cs new_Torchflower) = false /\
  server (run_calls cs new_Torchflower) = None /\
  error_handler (run_calls cs new_Torchflower) = default_error_handler /\
  request_ip SocketAddress requestIP (run_calls cs new_Torchflower) req = None.
Proof.
  destruct (run_calls_frame cs new_Torchflower) as (F1 & F2 & F3).
  unfold request_ip. rewrite F1, F2, F3 by reflexivity. repeat split.
Qed.

(** X23: on a new application, whatever set-up calls came first, the
    first [serve] hands [Bun.serve] the default 500 handler as error
    callback, the calls of [set_error_handler] made before being ignored.
    When [Bun.serve] throws, [serve] throws the same error and the
    application is left as it was, not listening and without server, the
    callback not run.  When it returns, [serve] ends as the callback
    does, the server with the default handler is stored and the flag is
    up, and they stay so through any later set-up call: a later
    [set_error_handler] changes the field of the application object but
    not the server that is already made. *)
Theorem server_error_callback_is_default cs cs' port on s
    (on_error : exn -> M S Response) :
  let this := run_calls cs new_Torchflower in
  let options := {| port := default 3000%Z port; error := default_error_handler |} in
  match Bun_serve options s with
  | (Throw e, s1) =>
      serve Bun_serve port on (this, s) = (Throw e, (this, s1)) /\
      listening this = false /\
      server this = None
  | (Normal _, s1) =>
      let running := served Bun_serve port on this s in
      serve Bun_serve port on (this, s) = (fst (on s1), (running, snd (on s1))) /\
      server (run_calls cs' running) = Some options /\
      listening (run_calls cs' running) = true /\
      error_handler (run_call (Call_set_error_handler on_error) running) = on_error /\
      server (run_call (Call_set_error_handler on_error) running) = Some options
  end.
Proof.
  intros this options. subst this options. unfold served. rewrite serve_eq.
  destruct (run_calls_frame cs new_Torchflower) as (F1 & F2 & F3).
  rewrite F3 by reflexivity.
  change (error_handler new_Torchflower) with (default_error_handler (S:=S)).
  destruct (Bun_serve _ s) as [[[]|e] s1].
  - cbn [fst snd].
    match goal with |- context [run_calls cs' ?t] =>
      destruct (run_calls_frame cs' t) as (G1 & G2 & _) end.
    rewrite G1, G2. repeat split.
  - rewrite F1, F2. repeat split.
Qed.

End facts.

(** X23 on the sample runtime: after an ignored [set_error_handler], on
    port 3000 the server holds the default handler; on port -1
    [Bun.serve] throws, and so does [serve], the application being left
    as new. *)
Lemma server_error_callback_is_default_witness :
  server (served samples.Bun_serve None (ret tt)
            (run_calls [Call_set_error_handler (fun _ => ret (new_Response "oops"))]
               new_Torchflower) 0) =
    Some {| port := 3000%Z; error := default_error_handler |} /\
  serve samples.Bun_serve (Some (-1)%Z) (ret tt) (new_Torchflower, 0) =
    (Throw (Error "Failed to start server"), (new_Torchflower, 0)).
Proof.
  split.
  - exact (proj1 (proj2 (server_error_callback_is_default samples.Bun_serve
                           [Call_set_error_handler (fun _ => ret (new_Response "oops"))]
                           [] None (ret tt) 0 default_error_handler))).
  - exact (proj1 (server_error_callback_is_default samples.Bun_serve
                    [] [] (Some (-1)%Z) (ret tt) 0 default_error_handler)).
Defined.

(** Witness of X21 with [get], on a new application. *)
Lemma fetch_after_verb_witness :
  fetch samples.URL_parse (snd (get "/" samples.hello new_Torchflower))
    samples.get_root 0 =
  (Normal (new_Response "Hello, World!"), 1).
Proof.
  apply (Forall_inv (fetch_after_verb samples.URL_parse)
           "/" samples.hello new_Torchflower samples.get_root
           {| pathname := "/" |} 0);
    reflexivity.
Defined.

End application_laws.

(** ** Properties of example.ts *)

Module example_laws.

Import guard router torchflower application example.
Import guard_laws router_spec router_laws application_laws.

Section facts.
Variable json : Request -> M world value.
Variable Bun_serve : Server world -> M world unit.
Variable URL_parse : String.string -> option URL.
Implicit Types (v x : value) (w : world) (req : Request).

Lemma yields_truthy_literal (L : value) x w :
  yields_truthy (literal L) x w = strict_equals L x && ToBoolean x.
Proof.
  unfold yields_truthy. rewrite literal_eq.
  destruct (strict_equals L x); reflexivity.
Qed.

Lemma state_after_literal (L : value) x w : state_after (literal L) x w = w.
Proof.
  unfold state_after. rewrite literal_eq.
  destruct (strict_equals L x); reflexivity.
Qed.

(** The union of the three string literals. *)
Lemma priority_union x w :
  or (string_literal "Critical")
     (or (string_literal "Medium") (string_literal "Low")) x w =
  if is_priority x then (Normal x, w) else (Throw (Error "Union check failed"), w).
Proof.
  change (string_literal "Critical") with (literal (S:=world) (VString "Critical")).
  change (string_literal "Medium") with (literal (S:=world) (VString "Medium")).
  change (string_literal "Low") with (literal (S:=world) (VString "Low")).
  rewrite or_branches, yields_truthy_or, state_after_or.
  rewrite !yields_truthy_literal, !state_after_literal.
  destruct x as [| |b|n|z|p|r|r|r props];
    try (cbn [strict_equals is_priority andb orb];
         rewrite ?andb_false_r; reflexivity).
  cbn [strict_equals is_priority].
  rewrite (String.eqb_sym p "Critical"), (String.eqb_sym p "Medium"),
          (String.eqb_sym p "Low").
  destruct (String.eqb_spec "Critical" p) as [<-|_]; [reflexivity|].
  destruct (String.eqb_spec "Medium" p) as [<-|_]; [reflexivity|].
  destruct (String.eqb_spec "Low" p) as [<-|_]; [reflexivity|].
  destruct (ToBoolean (VString p)); reflexivity.
Qed.

(** [task], case by case. *)
Lemma task_eq v w :
  task v w =
  if is_task v
  then (Normal (VObject (next_ref w)
                  [("name", samples.get_property v "name");
                   ("priority", samples.get_property v "priority")]),
        {| next_ref := Datatypes.S (next_ref w); console := console w |})
  else (Normal VNull, w).
Proof.
  unfold task, check, try_catch.
  rewrite record_eq.
  destruct v as [| |b|n|z|p|r|r|ref props]; try reflexivity.
  change (String.eqb (typeof (VObject ref props)) "object") with true. cbv iota.
  unfold is_task, task_shape, member, bind, ret.
  set (name := samples.get_property (VObject ref props) "name").
  set (priority := samples.get_property (VObject ref props) "priority").
  change (string name w) with (primitive_validator PString name w).
  rewrite guard_spec.primitive_validator_eq. cbn [expected_tag].
  destruct (String.eqb (typeof name) "string"); [|reflexivity].
  cbn [andb]. rewrite priority_union.
  destruct (is_priority priority); reflexivity.
Qed.

(** X24: the validator [task] never throws; on an object whose [name] is
    a string and whose [priority] is "Critical", "Medium" or "Low" it
    returns a new object with just these two properties; on everything
    else, [null], arrays, primitives and objects with a missing or wrong
    field included, it returns [null] and changes nothing. *)
Theorem task_accepts_exactly_tasks v w :
  throws (task v w) = false /\
  task v w =
    (if is_task v
     then (Normal (VObject (next_ref w)
                     [("name", samples.get_property v "name");
                      ("priority", samples.get_property v "priority")]),
           {| next_ref := Datatypes.S (next_ref w); console := console w |})
     else (Normal VNull, w)).
Proof.
  rewrite task_eq. destruct (is_task v); split; reflexivity.
Qed.

(** X25: the handler of "POST /task": when the body decodes to a task it
    prints the banner and the narrowed object and answers "200 OK"; when
    it decodes to anything else it answers "400 Bad Request" and prints
    nothing; when decoding fails the handler fails with the same error.
    Both answers are made by [new Response(text)], so both carry the
    status 200. *)
Theorem post_task_answers req w :
  post_task json req w =
    match json req w with
    | (Throw e, w1) => (Throw e, w1)
    | (Normal v, w1) =>
        if is_task v
        then (Normal (new_Response "200 OK"),
              {| next_ref := Datatypes.S (next_ref w1);
                 console :=
                   (console w1 ++ [Log (VString "--- New task received!")]) ++
                   [Table (VObject (next_ref w1)
                             [("name", samples.get_property v "name");
                              ("priority", samples.get_property v "priority")])] |})
        else (Normal (new_Response "400 Bad Request"), w1)
    end /\
  (forall response w', post_task json req w = (Normal response, w') ->
     status response = 200%Z).
Proof.
  assert (E : post_task json req w =
    match json req w with
    | (Throw e, w1) => (Throw e, w1)
    | (Normal v, w1) =>
        if is_task v
        then (Normal (new_Response "200 OK"),
              {| next_ref := Datatypes.S (next_ref w1);
                 console :=
                   (console w1 ++ [Log (VString "--- New task received!")]) ++
                   [Table (VObject (next_ref w1)
                             [("name", samples.get_property v "name");
                              ("priority", samples.get_property v "priority")])] |})
        else (Normal (new_Response "400 Bad Request"), w1)
    end).
  { unfold post_task, bind. destruct (json req w) as [[v|e] w1]; [|reflexivity].
    rewrite task_eq. destruct (is_task v); reflexivity. }
  split; [exact E|]. rewrite E.
  destruct (json req w) as [[v|e] w1]; [|discriminate].
  destruct (is_task v); intros response w' [= <- _]; reflexivity.
Qed.

(** X26: the script as a whole.  [main] calls [Bun.serve] with port 3000
    and the default error callback.  When that throws, [main] throws the
    same error, nothing printed, the application left with its two
    routes but not listening.  When it returns, [main] returns normally,
    having printed the listening line, with that server stored and the
    flag up.  Either way the application object answers "GET /" by
    "Hello, World!", "POST /task" by the task handler, and every other
    request whose URL parses by the fixed "404 INVALID", a "GET /task"
    among them. *)
Theorem example_serves_two_routes req u w0 w :
  URL_parse (url req) = Some u ->
  main json Bun_serve w0 =
    match Bun_serve {| port := 3000%Z; error := default_error_handler |} w0 with
    | (Throw e, w1) => (Throw e, (app json, w1))
    | (Normal _, w1) =>
        (Normal tt,
         ({| router := router (app json);
             error_handler := default_error_handler;
             server := Some {| port := 3000%Z; error := default_error_handler |};
             listening := true |},
          {| next_ref := next_ref w1;
             console := console w1 ++ [Log (VString "Listening on port 3000!")] |}))
    end /\
  listening (app json) = false /\
  server (app json) = None /\
  fetch URL_parse (fst (snd (main json Bun_serve w0))) req w =
    (if String.eqb (method req) "GET" && String.eqb (pathname u) "/"
     then (Normal (new_Response "Hello, World!"), w)
     else if String.eqb (method req) "POST" && String.eqb (pathname u) "/task"
          then post_task json req w
          else (Normal (new_Response "404 INVALID"), w)).
Proof.
  intros Hu.
  assert (Em : main json Bun_serve w0 =
    match Bun_serve {| port := 3000%Z; error := default_error_handler |} w0 with
    | (Throw e, w1) => (Throw e, (app json, w1))
    | (Normal _, w1) =>
        (Normal tt,
         ({| router := router (app json);
             error_handler := default_error_handler;
             server := Some {| port := 3000%Z; error := default_error_handler |};
             listening := true |},
          {| next_ref := next_ref w1;
             console := console w1 ++ [Log (VString "Listening on port 3000!")] |}))
    end).
  { unfold main. rewrite serve_eq.
    change (error_handler (app json)) with (default_error_handler (S:=world)).
    change (default 3000%Z (Some 3000%Z)) with 3000%Z.
    destruct (Bun_serve _ w0) as [[[]|e] w1]; reflexivity. }
  split; [exact Em|]. split; [reflexivity|]. split; [reflexivity|].
  assert (Er : router (fst (snd (main json Bun_serve w0))) = router (app json)).
  { rewrite Em. destruct (Bun_serve _ w0) as [[[]|e] w1]; reflexivity. }
  unfold fetch. rewrite Er. rewrite (handle_parsed URL_parse _ _ _ _ Hu).
  change (router (app json)) with
    (snd (route "POST" "/task" (post_task json)
            (snd (route "GET" "/" get_root (new_Router (S:=world)))))).
  rewrite !bound_route.
  assert (E : bound (new_Router (S:=world)) (method req) (pathname u) = None)
    by (unfold bound, new_Router; simpl; rewrite lookup_empty; reflexivity).
  rewrite E.
  repeat case_decide;
    destruct (String.eqb_spec (method req) "GET"),
             (String.eqb_spec (pathname u) "/"),
             (String.eqb_spec (method req) "POST"),
             (String.eqb_spec (pathname u) "/task");
    simpl; try reflexivity; exfalso; intuition congruence.
Qed.

End facts.

(** Witness of X26 with the sample parser and the sample runtime: the
    script returns, and a "GET /task" request gets the fixed answer. *)
Lemma example_serves_two_routes_witness :
  fst (main (fun _ => ret VNull) samples.Bun_serve {| next_ref := 0; console := [] |}) =
    Normal tt /\
  fetch samples.URL_parse
    (fst (snd (main (fun _ => ret VNull) samples.Bun_serve
                 {| next_ref := 0; console := [] |})))
    {| method := "GET"; url := "http://localhost:3000/task" |}
    {| next_ref := 0; console := [] |} =
  (Normal (new_Response "404 INVALID"), {| next_ref := 0; console := [] |}).
Proof.
  pose proof (example_serves_two_routes (fun _ => ret VNull) samples.Bun_serve
                samples.URL_parse
                {| method := "GET"; url := "http://localhost:3000/task" |}
                {| pathname := "/task" |}
                {| next_ref := 0; console := [] |}
                {| next_ref := 0; console := [] |} eq_refl) as (Em & _ & _ & Ef).
  split; [rewrite Em; reflexivity | exact Ef].
Defined.

(** Witness of X25: the answer to a body that is no task has status
    200. *)
Lemma post_task_answers_witness :
  status (new_Response "400 Bad Request") = 200%Z.
Proof.
  apply (proj2 (post_task_answers (fun _ => ret VNull)
                  {| method := "POST"; url := "http://localhost:3000/task" |}
                  {| next_ref := 0; console := [] |})
           (new_Response "400 Bad Request") {| next_ref := 0; console := [] |}).
  reflexivity.
Defined.

(** The two bodies of the README, through the task handler. *)
Example post_task_medium :
  post_task
    (fun _ => ret (VObject 0 [("name", VString "x"); ("priority", VString "Medium")]))
    {| method := "POST"; url := "http://localhost:3000/task" |}
    {| next_ref := 1; console := [] |} =
  (Normal (new_Response "200 OK"),
   {| next_ref := 2;
      console :=
        [Log (VString "--- New task received!");
         Table (VObject 1 [("name", VString "x"); ("priority", VString "Medium")])] |}).
Proof. reflexivity. Qed.

Example post_task_urgent :
  post_task
    (fun _ => ret (VObject 0 [("name", VString "x"); ("priority", VString "Urgent")]))
    {| method := "POST"; url := "http://localhost:3000/task" |}
    {| next_ref := 1; console := [] |} =
  (Normal (new_Response "400 Bad Request"), {| next_ref := 1; console := [] |}).
Proof. reflexivity. Qed.

End example_laws.
